(** * repoze.bfg.security: ACL evaluation, hierarchical policy, decision results

    A shallow embedding of [src/repoze/bfg/security.py] (Python 2) and the
    properties of its ACL evaluation that the specification states.

    Python objects are modelled by the inductive type [value]; an operation
    that can raise returns a [res], whose [Raise] carries the exception
    class.  The [logger] of the authorizer and of the policy is left out:
    [self.logger and self.logger.debug(str(result))] is an expression
    statement whose value is thrown away, and [result] is returned
    unchanged after it. *)

From Stdlib Require Import ZArith Ascii String List Bool Lia.
From stdpp Require Import base strings gmap list.

Set Warnings "-register-all".

Local Open Scope Z_scope.
Local Open Scope string_scope.
Local Open Scope list_scope.

(** ** Python values *)

(** The objects that ACLs, principals, permissions and the request
    environment are made of.  A dict is the list of its items in iteration
    order; its keys are strings. *)
Inductive value : Type :=
| VNone
| VBool (b : bool)
| VInt (z : Z)
| VStr (s : string)
| VList (els : list value)
| VTuple (els : list value)
| VDict (items : list (string * value)).

(** Exception classes raised by the modelled code.
    [NoAuthorizationInformation] is imported by the source from
    [repoze.bfg.interfaces]; the others are the interpreter's. *)
Inductive exc : Type :=
| NoAuthorizationInformation
| TypeError
| ValueError
| KeyError
| AttributeError.

Inductive res (A : Type) : Type :=
| Ok (a : A)
| Raise (e : exc).

Arguments Ok {A} a.
Arguments Raise {A} e.

Definition bind {A B : Type} (m : res A) (k : A -> res B) : res B :=
  match m with
  | Ok a => k a
  | Raise e => Raise e
  end.

Notation "x <- m ;; k" := (bind m (fun x => k))
  (at level 100, m at next level, right associativity).

(** Induction over values that reaches inside lists, tuples and dicts. *)
Section value_induction.
Variable P : value -> Prop.
Hypothesis HNone : P VNone.
Hypothesis HBool : forall b, P (VBool b).
Hypothesis HInt : forall z, P (VInt z).
Hypothesis HStr : forall s, P (VStr s).
Hypothesis HList : forall els, Forall P els -> P (VList els).
Hypothesis HTuple : forall els, Forall P els -> P (VTuple els).
Hypothesis HDict : forall items, Forall (fun kv => P (snd kv)) items -> P (VDict items).

Fixpoint value_nested_ind (v : value) : P v :=
  match v with
  | VNone => HNone
  | VBool b => HBool b
  | VInt z => HInt z
  | VStr s => HStr s
  | VList els =>
      HList els
        ((fix all (l : list value) : Forall P l :=
            match l with
            | [] => List.Forall_nil P
            | x :: l' => @List.Forall_cons _ P x l' (value_nested_ind x) (all l')
            end) els)
  | VTuple els =>
      HTuple els
        ((fix all (l : list value) : Forall P l :=
            match l with
            | [] => List.Forall_nil P
            | x :: l' => @List.Forall_cons _ P x l' (value_nested_ind x) (all l')
            end) els)
  | VDict items =>
      HDict items
        ((fix all (l : list (string * value)) : Forall (fun kv => P (snd kv)) l :=
            match l with
            | [] => List.Forall_nil _
            | kv :: l' =>
                @List.Forall_cons _ (fun kv => P (snd kv)) kv l'
                  (value_nested_ind (snd kv)) (all l')
            end) items)
  end.
End value_induction.

(** [d.get(key)] on the items of a dict; [None] when the key is missing. *)
Fixpoint dict_get (items : list (string * value)) (key : string) : option value :=
  match items with
  | [] => None
  | (k, v) :: rest => if String.eqb k key then Some v else dict_get rest key
  end.

(** [bool(v)]: the truth value of a built-in object. *)
Definition py_bool (v : value) : bool :=
  match v with
  | VNone => false
  | VBool b => b
  | VInt z => negb (Z.eqb z 0)
  | VStr s => negb (String.eqb s "")
  | VList els | VTuple els => negb (Nat.eqb (length els) 0)
  | VDict items => negb (Nat.eqb (length items) 0)
  end.

(** [a == b] on built-in objects.  A bool is the integer 0 or 1; a list
    never equals a tuple; sequences compare element by element; dicts
    compare as maps. *)
Fixpoint py_eq (a b : value) {struct a} : bool :=
  match a, b with
  | VNone, VNone => true
  | VBool x, VBool y => Bool.eqb x y
  | VBool x, VInt z => Z.eqb (if x then 1 else 0) z
  | VInt z, VBool x => Z.eqb z (if x then 1 else 0)
  | VInt x, VInt y => Z.eqb x y
  | VStr s, VStr t => String.eqb s t
  | VList l, VList m | VTuple l, VTuple m =>
      (fix seq_eq (l m : list value) {struct l} : bool :=
         match l, m with
         | [], [] => true
         | x :: l', y :: m' => py_eq x y && seq_eq l' m'
         | _, _ => false
         end) l m
  | VDict d, VDict e =>
      Nat.eqb (length d) (length e)
      && (fix items_eq (d : list (string * value)) {struct d} : bool :=
            match d with
            | [] => true
            | (k, v) :: d' =>
                match dict_get e k with
                | Some w => py_eq v w
                | None => false
                end && items_eq d'
            end) d
  | _, _ => false
  end.

(** [x in l] for a list [l]. *)
Definition py_in (x : value) (l : list value) : bool :=
  existsb (fun y => py_eq x y) l.

(** [x is None]. *)
Definition is_None (x : value) : bool :=
  match x with
  | VNone => true
  | _ => false
  end.

(** [isinstance(x, basestring)]. *)
Definition isinstance_basestring (x : value) : bool :=
  match x with
  | VStr _ => true
  | _ => false
  end.

(** [hasattr(x, "__iter__")]: in Python 2 lists, tuples and dicts have the
    attribute and strings do not. *)
Definition hasattr_iter (x : value) : bool :=
  match x with
  | VList _ | VTuple _ | VDict _ => true
  | _ => false
  end.

(** The characters of a string, each as a string of length one. *)
Fixpoint chars (s : string) : list value :=
  match s with
  | EmptyString => []
  | String c s' => VStr (String c EmptyString) :: chars s'
  end.

(** The elements that [for el in x] visits; iterating an object that is
    not iterable raises [TypeError]. *)
Definition py_iter (x : value) : res (list value) :=
  match x with
  | VList els | VTuple els => Ok els
  | VDict items => Ok (map (fun kv => VStr (fst kv)) items)
  | VStr s => Ok (chars s)
  | _ => Raise TypeError
  end.

(** ** Constants *)

Definition Everyone : value := VStr "system.Everyone".
Definition Authenticated : value := VStr "system.Authenticated".
Definition Allow : value := VStr "Allow".
Definition Deny : value := VStr "Deny".

(** ** flatten *)

(** The body of [for el in x] in [flatten], with [result] as accumulator
    and [rec] the recursive call. *)
Definition flatten_loop (rec : value -> res (list value))
  : list value -> list value -> res (list value) :=
  fix loop (result els : list value) {struct els} : res (list value) :=
    match els with
    | [] => Ok result
    | el :: els' =>
        if hasattr_iter el && negb (isinstance_basestring el)
        then sub <- rec el ;; loop (result ++ sub) els'
        else loop (result ++ [el]) els'
    end.

(** [flatten(x)].  The keys that iterating a dict yields are strings, so
    each of them is appended. *)
Fixpoint flatten (x : value) : res (list value) :=
  if isinstance_basestring x then Ok [x]
  else
    match x with
    | VList els | VTuple els => flatten_loop flatten [] els
    | VDict items => Ok (map (fun kv => VStr (fst kv)) items)
    | _ => Raise TypeError
    end.

(** ** Decision results *)

Module PermitsResult.
(** The attributes that [PermitsResult.__init__] sets. *)
Record t : Type := mk {
  acl : value;
  ace : value;
  permission : value;
  principals : value;
  context_repr : string
}.
End PermitsResult.

(** An instance of one of the two subclasses of [PermitsResult]. *)
Inductive decision : Type :=
| Denied (r : PermitsResult.t)
| Allowed (r : PermitsResult.t).

Definition fields (d : decision) : PermitsResult.t :=
  match d with
  | Denied r | Allowed r => r
  end.

(** What a caller of the policy can hold: a built-in object or a decision. *)
Inductive pyobj : Type :=
| Builtin (v : value)
| Instance (d : decision).

(** [__nonzero__] of [Denied] and of [Allowed]. *)
Definition nonzero (self : decision) : bool :=
  match self with
  | Denied _ => false
  | Allowed _ => true
  end.

(** [bool(o)]. *)
Definition obj_bool (o : pyobj) : bool :=
  match o with
  | Builtin v => py_bool v
  | Instance d => nonzero d
  end.

(** [__eq__] of [Denied] ([bool(other) is False]) and of [Allowed]
    ([bool(other) is True]); [self == other] calls it. *)
Definition decision_eq (self : decision) (other : pyobj) : bool :=
  match self with
  | Denied _ => Bool.eqb (obj_bool other) false
  | Allowed _ => Bool.eqb (obj_bool other) true
  end.

(** ** Resource nodes *)

(** Modelled from the spec: a resource node of the host application, which
    is not part of this module.  [node_acl] is the [__acl__] attribute
    ([None] when the object has no such attribute), [node_repr] is
    [repr(node)], [node_parent] the [__parent__] reference. *)
Inductive node : Type :=
| Node (node_acl : option value) (node_repr : string) (node_parent : option node).

Definition node_acl (n : node) : option value :=
  match n with Node a _ _ => a end.

Definition node_repr (n : node) : string :=
  match n with Node _ r _ => r end.

Definition node_parent (n : node) : option node :=
  match n with Node _ _ p => p end.

(** Modelled from the spec: the ancestor-chain protocol, which the source
    imports as [zope.location.location.LocationIterator]: the node itself,
    then its successive parents up to and including the root. *)
Fixpoint LocationIterator (object : node) : list node :=
  match object with
  | Node _ _ None => [object]
  | Node _ _ (Some parent) => object :: LocationIterator parent
  end.

(** [PermitsResult.__init__(self, ace, acl, permission, principals, context)]. *)
Definition PermitsResult_init (ace acl permission principals : value)
  (context : node) : PermitsResult.t :=
  {| PermitsResult.acl := acl;
     PermitsResult.ace := ace;
     PermitsResult.permission := permission;
     PermitsResult.principals := principals;
     PermitsResult.context_repr := node_repr context |}.

(** ** The node authorizer *)

(** [a, b, c = x]. *)
Definition unpack3 (x : value) : res (value * value * value) :=
  els <- py_iter x ;;
  match els with
  | [a; b; c] => Ok (a, b, c)
  | _ => Raise ValueError
  end.

Module ACLAuthorizer.

Record t : Type := mk { context : node }.

(** [getattr(self.context, '__acl__', default)]. *)
Definition get_acl (self : t) (default : value) : value :=
  match node_acl (context self) with
  | Some acl => acl
  | None => default
  end.

(** The loop [for principal in flatten(principals)] for one ACE; [Some d]
    when the loop body returned [d], [None] when the loop ran to its end. *)
Fixpoint principal_loop (self : t) (ace acl permission principals : value)
  (ace_action ace_principal ace_permissions : value)
  (flat : list value) : res (option decision) :=
  match flat with
  | [] => Ok None
  | principal :: flat' =>
      if py_eq ace_principal principal then
        permissions <- flatten ace_permissions ;;
        if py_in permission permissions then
          let action := ace_action in
          if py_eq action Allow then
            Ok (Some (Allowed (PermitsResult_init ace acl permission principals
                                 (context self))))
          else
            Ok (Some (Denied (PermitsResult_init ace acl permission principals
                                (context self))))
        else
          principal_loop self ace acl permission principals
            ace_action ace_principal ace_permissions flat'
      else
        principal_loop self ace acl permission principals
          ace_action ace_principal ace_permissions flat'
  end.

(** The loop [for ace in acl] and the statements after it. *)
Fixpoint ace_loop (self : t) (acl permission principals : value)
  (aces : list value) : res decision :=
  match aces with
  | [] => Ok (Denied (PermitsResult_init VNone acl permission principals
                        (context self)))
  | ace :: aces' =>
      parts <- unpack3 ace ;;
      let '(ace_action, ace_principal, ace_permissions) := parts in
      flat <- flatten principals ;;
      returned <- principal_loop self ace acl permission principals
                    ace_action ace_principal ace_permissions flat ;;
      match returned with
      | Some result => Ok result
      | None => ace_loop self acl permission principals aces'
      end
  end.

(** [permits(self, permission, *principals)]; [principals] is the tuple of
    the positional arguments. *)
Definition permits (self : t) (permission : value) (principals : list value)
  : res decision :=
  let principals := VTuple principals in
  let acl := get_acl self VNone in
  if is_None acl then Raise NoAuthorizationInformation
  else
    aces <- py_iter acl ;;
    ace_loop self acl permission principals aces.

End ACLAuthorizer.

(** ** Requests and principal resolvers *)

Record request : Type := { environ : gmap string value }.

(** [d.get(key)] on the request environment. *)
Definition environ_get (r : request) (key : string) : value :=
  match environ r !! key with
  | Some v => v
  | None => VNone
  end.

(** [x[key]] for a string key. *)
Definition getitem (x : value) (key : string) : res value :=
  match x with
  | VDict items =>
      match dict_get items key with
      | Some v => Ok v
      | None => Raise KeyError
      end
  | _ => Raise TypeError
  end.

(** [x.get(key, default)]. *)
Definition get_method (x : value) (key : string) (default : value) : res value :=
  match x with
  | VDict items =>
      match dict_get items key with
      | Some v => Ok v
      | None => Ok default
      end
  | _ => Raise AttributeError
  end.

Definition get_remoteuser (r : request) : res value :=
  let user_id := environ_get r "REMOTE_USER" in
  if py_bool user_id then Ok (VList [user_id])
  else Ok (VList []).

Definition get_who_principals (r : request) : res value :=
  let identity := environ_get r "repoze.who.identity" in
  if negb (py_bool identity) then Ok (VList [])
  else
    userid <- getitem identity "repoze.who.userid" ;;
    let principals := [userid] in
    groups <- get_method identity "groups" (VList []) ;;
    extension <- py_iter groups ;;
    Ok (VList (principals ++ extension)).

(** ** The hierarchical security policy *)

Module ACLSecurityPolicy.

Record t : Type := mk { get_principals : request -> res value }.

Definition authorizer_factory (location : node) : ACLAuthorizer.t :=
  ACLAuthorizer.mk location.

Definition effective_principals (self : t) (r : request) : res (list value) :=
  let effective_principals := [Everyone] in
  principal_ids <- get_principals self r ;;
  if py_bool principal_ids then
    extension <- py_iter principal_ids ;;
    Ok ((effective_principals ++ [Authenticated]) ++ extension)
  else Ok effective_principals.

(** The loop [for location in LocationIterator(context)] and the
    [return False] after it. *)
Fixpoint location_loop (self : t) (permission : value) (principals : list value)
  (locations : list node) : res pyobj :=
  match locations with
  | [] => Ok (Builtin (VBool false))
  | location :: locations' =>
      let authorizer := authorizer_factory location in
      match ACLAuthorizer.permits authorizer permission principals with
      | Ok result => Ok (Instance result)
      | Raise NoAuthorizationInformation =>
          location_loop self permission principals locations'
      | Raise e => Raise e
      end
  end.

Definition permits (self : t) (context : node) (r : request) (permission : value)
  : res pyobj :=
  principals <- effective_principals self r ;;
  location_loop self permission principals (LocationIterator context).

End ACLSecurityPolicy.

Definition RemoteUserACLSecurityPolicy : ACLSecurityPolicy.t :=
  ACLSecurityPolicy.mk get_remoteuser.

Definition RepozeWhoIdentityACLSecurityPolicy : ACLSecurityPolicy.t :=
  ACLSecurityPolicy.mk get_who_principals.

(** ** The module-level entry point *)

(** The methods of [ISecurityPolicy] that the entry point calls. *)
Record ISecurityPolicy : Type := {
  policy_permits : node -> request -> value -> res pyobj
}.

(** [ACLSecurityPolicy] implements the interface. *)
Definition ACLSecurityPolicy_implements (p : ACLSecurityPolicy.t) : ISecurityPolicy :=
  {| policy_permits := ACLSecurityPolicy.permits p |}.

(** The component registry, as far as this module reads it:
    [queryUtility(ISecurityPolicy)] is the registered policy or [None]. *)
Record registry : Type := { queryUtility_ISecurityPolicy : option ISecurityPolicy }.

Definition has_permission (reg : registry) (permission : value) (context : node)
  (r : request) : res pyobj :=
  let policy := queryUtility_ISecurityPolicy reg in
  match policy with
  | None => Ok (Builtin (VBool true))
  | Some policy => policy_permits policy context r permission
  end.

(** ** Vocabulary of the specification *)

(** An atomic value: one that the loop of [flatten] appends as it is. *)
Definition atomic (v : value) : bool :=
  negb (hasattr_iter v && negb (isinstance_basestring v)).

(** The principal field of an ACE matches one of the flattened principals
    of the caller. *)
Definition principal_matches (ace_principal : value) (flat : list value) : bool :=
  existsb (py_eq ace_principal) flat.

(** The flattened permission field of an ACE contains the permission. *)
Definition permission_listed (permission ace_permissions : value) : bool :=
  match flatten ace_permissions with
  | Ok permissions => py_in permission permissions
  | Raise _ => false
  end.

(** An ACE that matches both a principal and the permission. *)
Definition ace_matches (permission : value) (flat : list value) (ace : value) : bool :=
  match unpack3 ace with
  | Ok (_, ace_principal, ace_permissions) =>
      principal_matches ace_principal flat
      && permission_listed permission ace_permissions
  | Raise _ => false
  end.

(** A well-formed ACE that does not match: its principal field equals no
    flattened principal, or its permission field flattens to a list without
    the permission. *)
Definition ace_passed_over (permission : value) (flat : list value) (ace : value)
  : bool :=
  match unpack3 ace with
  | Ok (_, ace_principal, ace_permissions) =>
      negb (principal_matches ace_principal flat)
      || match flatten ace_permissions with
         | Ok permissions => negb (py_in permission permissions)
         | Raise _ => false
         end
  | Raise _ => false
  end.

(** The match of a principal field as the specification words it: the
    field is flattened, and each configured principal is compared with each
    flattened principal of the caller. *)
Definition spec_principal_matches (ace_principal : value) (flat : list value) : bool :=
  match flatten ace_principal with
  | Ok configured => existsb (fun c => existsb (py_eq c) flat) configured
  | Raise _ => false
  end.

(** The decision that a matching ACE gives. *)
Definition decision_of (action ace acl permission principals : value)
  (context : node) : decision :=
  if py_eq action Allow
  then Allowed (PermitsResult_init ace acl permission principals context)
  else Denied (PermitsResult_init ace acl permission principals context).

(** The implicit deny: no deciding ACE, the ACL consulted. *)
Definition implicit_deny (acl permission principals : value) (context : node)
  : decision :=
  Denied (PermitsResult_init VNone acl permission principals context).

(** Every node of the ancestor chain lacks the [__acl__] attribute. *)
Definition chain_without_acl (context : node) : bool :=
  forallb (fun n => match node_acl n with None => true | Some _ => false end)
    (LocationIterator context).

(** ** Sample configurations *)

Definition george : value := VStr "george".
Definition view : value := VStr "view".
Definition edit : value := VStr "edit".

(** A request whose environment names the remote user george. *)
Definition george_request : request :=
  {| environ := {[ "REMOTE_USER" := george ]} |}.

(** A request whose environment is empty. *)
Definition anonymous_request : request := {| environ := ∅ |}.

(** A request carrying an identity with a group list. *)
Definition who_request : request :=
  {| environ :=
       {[ "repoze.who.identity" :=
            VDict [("repoze.who.userid", george);
                   ("groups", VList [VStr "admins"; VStr "staff"])] ]} |}.

(** A request carrying an identity without a group list. *)
Definition who_request_no_groups : request :=
  {| environ :=
       {[ "repoze.who.identity" := VDict [("repoze.who.userid", george)] ]} |}.

Definition allow_george_view : value := VTuple [Allow; george; view].
Definition deny_everyone_view : value := VTuple [Deny; Everyone; view].
Definition allow_everyone_view : value := VTuple [Allow; Everyone; view].

Definition george_then_deny : value :=
  VList [allow_george_view; deny_everyone_view].

(** The same ACL followed by an entry that is no ACE: unpacking it would
    raise. *)
Definition george_then_deny_then_junk : value :=
  VList [allow_george_view; deny_everyone_view; VInt 0].

(** A root that allows everyone to view, a folder without [__acl__], and
    below it documents with an empty ACL, with an ACL naming another
    permission, with [__acl__ = None], and without [__acl__]. *)
Definition open_root : node :=
  Node (Some (VList [allow_everyone_view])) "<root>" None.
Definition folder : node := Node None "<folder>" (Some open_root).
Definition empty_acl_document : node :=
  Node (Some (VList [])) "<document>" (Some folder).
Definition edit_only_document : node :=
  Node (Some (VList [VTuple [Allow; Everyone; edit]])) "<document>" (Some folder).
Definition null_acl_document : node :=
  Node (Some VNone) "<document>" (Some folder).

(** A chain on which no node has [__acl__]. *)
Definition bare_root : node := Node None "<root>" None.
Definition bare_folder : node := Node None "<folder>" (Some bare_root).
Definition bare_document : node := Node None "<document>" (Some bare_folder).

(** An ACE whose principal field nests a group. *)
Definition nested_group : value := VList [VStr "bob"; VList [george]].
Definition allow_group_view : value := VTuple [Allow; nested_group; view].
Definition group_document : node :=
  Node (Some (VList [allow_group_view])) "<document>" None.

(** ** The other queries of the policy *)

(** [x[0]] for an object [x] that is true: the first element of a list or
    tuple, the first character of a string; a dict has no key [0]
    ([KeyError]), and a number cannot be indexed ([TypeError]).  The empty
    sequences are false, so the caller below never indexes them. *)
Definition first_item (x : value) : res value :=
  match x with
  | VList (first :: _) | VTuple (first :: _) => Ok first
  | VStr (String c _) => Ok (VStr (String c EmptyString))
  | VDict _ => Raise KeyError
  | _ => Raise TypeError
  end.

(** [ACLSecurityPolicy.authenticated_userid(self, request)]; a method that
    falls off its end returns [None]. *)
Definition ACLSecurityPolicy_authenticated_userid (self : ACLSecurityPolicy.t)
  (r : request) : res value :=
  principals <- ACLSecurityPolicy.get_principals self r ;;
  if py_bool principals then first_item principals
  else Ok VNone.

(** The module-level [authenticated_userid(request)] and
    [effective_principals(request)]; [policy] is what
    [queryUtility(ISecurityPolicy)] gives, an [ACLSecurityPolicy] being the
    implementation of this module. *)
Definition authenticated_userid (policy : option ACLSecurityPolicy.t)
  (r : request) : res value :=
  match policy with
  | None => Ok VNone
  | Some policy => ACLSecurityPolicy_authenticated_userid policy r
  end.

Definition effective_principals (policy : option ACLSecurityPolicy.t)
  (r : request) : res value :=
  match policy with
  | None => Ok (VList [])
  | Some policy =>
      principals <- ACLSecurityPolicy.effective_principals policy r ;;
      Ok (VList principals)
  end.

(** ** View permissions *)

Module ViewPermission.
Record t : Type := mk {
  context : node;
  request : request;
  permission_name : value
}.

(** [__call__(self, security_policy)]. *)
Definition call (self : t) (security_policy : ISecurityPolicy) : res pyobj :=
  policy_permits security_policy (context self) (request self)
    (permission_name self).
End ViewPermission.

Module ViewPermissionFactory.
Record t : Type := mk { permission_name : value }.

(** [__call__(self, context, request)]. *)
Definition call (self : t) (context : node) (r : request) : ViewPermission.t :=
  ViewPermission.mk context r (permission_name self).
End ViewPermissionFactory.

(** ** The debug logger *)

(** What the module sets on the objects of [logging]: the stream and the
    format of a handler, the name, handlers and level of a logger. *)
Record Handler : Type := { handler_stream : string; handler_fmt : string }.

Record Logger : Type := {
  logger_name : string;
  logger_handlers : list Handler;
  logger_level : Z
}.

Definition DEBUG_LOG_KEY : string := "BFG_SECURITY_DEBUG".

(** [logging.DEBUG]. *)
Definition logging_DEBUG : Z := 10.

(** [str.lower] on a byte string: the letters [A] to [Z] are moved to [a]
    to [z], every other byte is kept. *)
Definition lower_char (c : ascii) : ascii :=
  let n := nat_of_ascii c in
  if (Nat.leb 65 n && Nat.leb n 90)%bool then ascii_of_nat (n + 32) else c.

Fixpoint lower (s : string) : string :=
  match s with
  | EmptyString => EmptyString
  | String c s' => String (lower_char c) (lower s')
  end.

(** [debug_logger(logger)]; [os_environ] is [os.environ]. *)
Definition debug_logger (os_environ : gmap string string) (logger : option Logger)
  : option Logger :=
  match logger with
  | None =>
      let do_debug_log :=
        match os_environ !! DEBUG_LOG_KEY with
        | Some v => v
        | None => ""
        end in
      if existsb (String.eqb (lower do_debug_log)) ["1"; "y"; "true"; "t"; "on"]
      then
        let handler := {| handler_stream := "sys.stdout";
                          handler_fmt := "%(asctime)s %(message)s" |} in
        Some {| logger_name := "repoze.bfg.security";
                logger_handlers := [handler];
                logger_level := logging_DEBUG |}
      else logger
  | Some _ => logger
  end.

(** ** The textual summary of a decision *)

(** [self.__class__.__name__]. *)
Definition class_name (self : decision) : string :=
  match self with
  | Denied _ => "Denied"
  | Allowed _ => "Allowed"
  end.

(** [PermitsResult.__str__]; [repr] is the interpreter's [repr], which the
    format [%r] applies. *)
Definition decision_str (repr : value -> string) (self : decision) : string :=
  class_name self ++ ": " ++ repr (PermitsResult.permission (fields self))
  ++ " via ace " ++ repr (PermitsResult.ace (fields self))
  ++ " in acl " ++ repr (PermitsResult.acl (fields self))
  ++ " or principals " ++ repr (PermitsResult.principals (fields self))
  ++ " in context " ++ PermitsResult.context_repr (fields self).

(** ** Vocabulary of the further properties *)

(** The exception that evaluating an ACE raises, if it raises: it is not
    a sequence of three elements, or its principal matches and its
    permission field cannot be flattened. *)
Definition ace_raises (flat : list value) (ace : value) : option exc :=
  match unpack3 ace with
  | Raise e => Some e
  | Ok (_, ace_principal, ace_permissions) =>
      if principal_matches ace_principal flat then
        match flatten ace_permissions with
        | Raise e => Some e
        | Ok _ => None
        end
      else None
  end.

(** The first of the locations whose [__acl__] is there and is not
    [None]. *)
Fixpoint nearest_acl (locations : list node) : option node :=
  match locations with
  | [] => None
  | location :: locations' =>
      if is_None (ACLAuthorizer.get_acl (ACLAuthorizer.mk location) VNone)
      then nearest_acl locations'
      else Some location
  end.

(** What of a decision does not depend on how the caller wrote its
    principals: its truth value and its deciding ACE. *)
Definition verdict (d : decision) : bool * value :=
  (nonzero d, PermitsResult.ace (fields d)).

Definition res_map {A B : Type} (f : A -> B) (m : res A) : res B :=
  match m with
  | Ok a => Ok (f a)
  | Raise e => Raise e
  end.

(** ** Further sample configurations *)

(** An identity without user id, and one whose groups are a string. *)
Definition who_request_no_userid : request :=
  {| environ :=
       {[ "repoze.who.identity" := VDict [("groups", VList [VStr "admins"])] ]} |}.

Definition who_request_string_groups : request :=
  {| environ :=
       {[ "repoze.who.identity" :=
            VDict [("repoze.who.userid", george); ("groups", VStr "ab")] ]} |}.

Definition allow_authenticated_view : value := VTuple [Allow; Authenticated; view].

(** An ACE whose action is misspelt, and one whose permission field is a
    number. *)
Definition lowercase_allow_view : value := VTuple [VStr "allow"; Everyone; view].
Definition everyone_number : value := VTuple [Allow; Everyone; VInt 7].

Definition broken_document : node :=
  Node (Some (VList [allow_george_view; everyone_number; allow_everyone_view]))
    "<document>" (Some open_root).

(** A document without [__acl__] below a folder with an ACL below the open
    root. *)
Definition closed_folder : node :=
  Node (Some (VList [deny_everyone_view])) "<folder>" (Some open_root).
Definition inheriting_document : node :=
  Node None "<document>" (Some closed_folder).

(** * Properties *)

(** ** Facts about [flatten] *)

Lemma flatten_VList els : flatten (VList els) = flatten_loop flatten [] els.
Proof. reflexivity. Qed.

Lemma flatten_VTuple els : flatten (VTuple els) = flatten_loop flatten [] els.
Proof. reflexivity. Qed.

Lemma flatten_loop_cons rec acc el els :
  flatten_loop rec acc (el :: els) =
  if hasattr_iter el && negb (isinstance_basestring el)
  then sub <- rec el ;; flatten_loop rec (acc ++ sub) els
  else flatten_loop rec (acc ++ [el]) els.
Proof. reflexivity. Qed.

Lemma flatten_loop_acc rec acc els :
  flatten_loop rec acc els = (r <- flatten_loop rec [] els ;; Ok (acc ++ r)).
Proof.
  revert acc. induction els as [|el els IH]; intros acc.
  - simpl. by rewrite app_nil_r.
  - rewrite !flatten_loop_cons.
    destruct (hasattr_iter el && negb (isinstance_basestring el)).
    + destruct (rec el) as [sub|e]; simpl; [|done].
      rewrite (IH (acc ++ sub)), (IH sub).
      destruct (flatten_loop rec [] els); simpl; [|done].
      by rewrite app_assoc.
    + simpl. rewrite (IH (acc ++ [el])), (IH [el]).
      destruct (flatten_loop rec [] els); simpl; [|done].
      by rewrite <- app_assoc.
Qed.

Lemma flatten_loop_app rec l1 l2 :
  flatten_loop rec [] (l1 ++ l2) =
  (r1 <- flatten_loop rec [] l1 ;; r2 <- flatten_loop rec [] l2 ;; Ok (r1 ++ r2)).
Proof.
  induction l1 as [|el l1 IH].
  - simpl. by destruct (flatten_loop rec [] l2).
  - rewrite <- app_comm_cons, !flatten_loop_cons.
    destruct (hasattr_iter el && negb (isinstance_basestring el)).
    + destruct (rec el) as [sub|e]; simpl; [|done].
      rewrite (flatten_loop_acc rec sub (l1 ++ l2)), (flatten_loop_acc rec sub l1), IH.
      destruct (flatten_loop rec [] l1); simpl; [|done].
      destruct (flatten_loop rec [] l2); simpl; [|done].
      by rewrite app_assoc.
    + simpl.
      rewrite (flatten_loop_acc rec [el] (l1 ++ l2)), (flatten_loop_acc rec [el] l1), IH.
      destruct (flatten_loop rec [] l1); simpl; [|done].
      by destruct (flatten_loop rec [] l2).
Qed.

Lemma atomic_keys (items : list (string * value)) :
  Forall (fun v => atomic v = true) (map (fun kv => VStr (fst kv)) items).
Proof. induction items; simpl; constructor; done. Qed.

(** Flattening an iterable object never raises, and leaves atomic values
    only. *)
Lemma flatten_iterable v :
  hasattr_iter v = true ->
  exists r, flatten v = Ok r /\ Forall (fun x => atomic x = true) r.
Proof.
  assert (Hloop : forall els,
    Forall (fun v => hasattr_iter v = true ->
              exists r, flatten v = Ok r /\ Forall (fun x => atomic x = true) r) els ->
    forall acc, Forall (fun x => atomic x = true) acc ->
    exists r, flatten_loop flatten acc els = Ok r /\ Forall (fun x => atomic x = true) r).
  { intros els Hels. induction Hels as [|el els Hel _ IH]; intros acc Hacc.
    - exists acc. done.
    - rewrite flatten_loop_cons.
      destruct (hasattr_iter el && negb (isinstance_basestring el)) eqn:Hc.
      + apply andb_true_iff in Hc as [Hit _].
        destruct (Hel Hit) as (sub & -> & Hsub). simpl.
        apply IH. by apply Forall_app.
      + apply IH. apply Forall_app. split; [done|].
        constructor; [|done]. unfold atomic. by rewrite Hc. }
  induction v as [| | | |els IH|els IH|items IH] using value_nested_ind;
    intros Hit; try discriminate Hit.
  - rewrite flatten_VList. by apply Hloop.
  - rewrite flatten_VTuple. by apply Hloop.
  - eexists. split; [reflexivity|]. apply atomic_keys.
Qed.

Lemma flatten_atomic x r :
  flatten x = Ok r -> Forall (fun v => atomic v = true) r.
Proof.
  intros H. destruct (hasattr_iter x) eqn:Hit.
  - destruct (flatten_iterable x Hit) as (r' & Hr' & Hat). congruence.
  - destruct x; try discriminate; simpl in H; inversion H; subst.
    by constructor.
Qed.

Lemma flatten_loop_atoms acc l :
  Forall (fun v => atomic v = true) l ->
  flatten_loop flatten acc l = Ok (acc ++ l).
Proof.
  intros Hl. revert acc. induction Hl as [|el l Hel _ IH]; intros acc.
  - simpl. by rewrite app_nil_r.
  - rewrite flatten_loop_cons. unfold atomic in Hel.
    apply negb_true_iff in Hel. rewrite Hel, IH.
    by rewrite <- app_assoc.
Qed.

(** Flattening the tuple of the arguments of [permits] never raises. *)
Lemma flatten_principals_total (principals : list value) :
  exists flat, flatten (VTuple principals) = Ok flat
               /\ Forall (fun v => atomic v = true) flat.
Proof. by apply flatten_iterable. Qed.

(** ** Facts about the node authorizer *)

Section authorizer_facts.
Variable self : ACLAuthorizer.t.
Variables ace acl permission principals : value.
Variables ace_action ace_principal ace_permissions : value.

Local Abbreviation ploop :=
  (ACLAuthorizer.principal_loop self ace acl permission principals
     ace_action ace_principal ace_permissions).

Lemma principal_loop_no_principal flat :
  principal_matches ace_principal flat = false -> ploop flat = Ok None.
Proof.
  unfold principal_matches. induction flat as [|p flat IH]; simpl; [done|].
  intros H. apply orb_false_iff in H as [Hp Hflat].
  rewrite Hp. by apply IH.
Qed.

Lemma principal_loop_no_permission flat permissions :
  flatten ace_permissions = Ok permissions ->
  py_in permission permissions = false ->
  ploop flat = Ok None.
Proof.
  intros Hf Hin. induction flat as [|p flat IH]; simpl; [done|].
  destruct (py_eq ace_principal p); [|done].
  rewrite Hf. simpl. by rewrite Hin.
Qed.

Lemma principal_loop_match flat permissions :
  principal_matches ace_principal flat = true ->
  flatten ace_permissions = Ok permissions ->
  py_in permission permissions = true ->
  ploop flat = Ok (Some (decision_of ace_action ace acl permission principals
                           (ACLAuthorizer.context self))).
Proof.
  unfold principal_matches. intros Hm Hf Hin.
  induction flat as [|p flat IH]; simpl in *; [done|].
  destruct (py_eq ace_principal p).
  - rewrite Hf. simpl. rewrite Hin. unfold decision_of.
    by destruct (py_eq ace_action Allow).
  - by apply IH.
Qed.

End authorizer_facts.

Lemma ace_loop_cons self acl permission principals ace aces
  ace_action ace_principal ace_permissions flat :
  unpack3 ace = Ok (ace_action, ace_principal, ace_permissions) ->
  flatten principals = Ok flat ->
  ACLAuthorizer.ace_loop self acl permission principals (ace :: aces) =
  (returned <- ACLAuthorizer.principal_loop self ace acl permission principals
                 ace_action ace_principal ace_permissions flat ;;
   match returned with
   | Some result => Ok result
   | None => ACLAuthorizer.ace_loop self acl permission principals aces
   end).
Proof. intros Hu Hf. simpl. rewrite Hu. simpl. by rewrite Hf. Qed.

Lemma ace_loop_passed_over self acl permission principals flat ace aces :
  flatten principals = Ok flat ->
  ace_passed_over permission flat ace = true ->
  ACLAuthorizer.ace_loop self acl permission principals (ace :: aces) =
  ACLAuthorizer.ace_loop self acl permission principals aces.
Proof.
  unfold ace_passed_over. intros Hf Hp.
  destruct (unpack3 ace) as [[[a p] ps]|] eqn:Hu; [|done].
  rewrite (ace_loop_cons _ _ _ _ _ _ _ _ _ _ Hu Hf).
  apply orb_true_iff in Hp as [Hp|Hp].
  - apply negb_true_iff in Hp. by rewrite principal_loop_no_principal.
  - destruct (flatten ps) as [permissions|] eqn:Hps; [|done].
    apply negb_true_iff in Hp.
    by rewrite (principal_loop_no_permission _ _ _ _ _ _ _ _ _ _ Hps Hp).
Qed.

Lemma ace_loop_all_passed_over self acl permission principals flat aces rest :
  flatten principals = Ok flat ->
  forallb (ace_passed_over permission flat) aces = true ->
  ACLAuthorizer.ace_loop self acl permission principals (aces ++ rest) =
  ACLAuthorizer.ace_loop self acl permission principals rest.
Proof.
  intros Hf. induction aces as [|ace aces IH]; [done|].
  intros H. simpl in H. apply andb_true_iff in H as [H1 H2].
  rewrite <- app_comm_cons, (ace_loop_passed_over _ _ _ _ _ _ _ Hf H1).
  by apply IH.
Qed.

Lemma ace_loop_match self acl permission principals flat ace aces
  ace_action ace_principal ace_permissions :
  flatten principals = Ok flat ->
  unpack3 ace = Ok (ace_action, ace_principal, ace_permissions) ->
  ace_matches permission flat ace = true ->
  ACLAuthorizer.ace_loop self acl permission principals (ace :: aces) =
  Ok (decision_of ace_action ace acl permission principals
        (ACLAuthorizer.context self)).
Proof.
  unfold ace_matches, permission_listed. intros Hf Hu Hm.
  rewrite Hu in Hm. apply andb_true_iff in Hm as [Hp Hl].
  destruct (flatten ace_permissions) as [permissions|] eqn:Hps; [|done].
  rewrite (ace_loop_cons _ _ _ _ _ _ _ _ _ _ Hu Hf).
  by rewrite (principal_loop_match _ _ _ _ _ _ _ _ _ _ Hp Hps Hl).
Qed.

Lemma permits_with_acl self acl permission principals aces :
  node_acl (ACLAuthorizer.context self) = Some acl ->
  py_iter acl = Ok aces ->
  ACLAuthorizer.permits self permission principals =
  ACLAuthorizer.ace_loop self acl permission (VTuple principals) aces.
Proof.
  intros Hacl Hit. unfold ACLAuthorizer.permits, ACLAuthorizer.get_acl.
  rewrite Hacl.
  destruct acl; try discriminate Hit; cbn [is_None]; by rewrite Hit.
Qed.

Lemma permits_without_acl self permission principals :
  ACLAuthorizer.get_acl self VNone = VNone ->
  ACLAuthorizer.permits self permission principals = Raise NoAuthorizationInformation.
Proof. intros H. unfold ACLAuthorizer.permits. by rewrite H. Qed.

(** A principal field that is itself a sequence equals no atomic value. *)
Lemma sequence_matches_no_atom ace_principal flat :
  hasattr_iter ace_principal = true ->
  Forall (fun v => atomic v = true) flat ->
  principal_matches ace_principal flat = false.
Proof.
  intros Hit Hflat. unfold principal_matches.
  induction Hflat as [|p flat Hp _ IH]; [done|].
  cbn [existsb]. rewrite IH, orb_false_r.
  destruct ace_principal; try discriminate Hit; by destruct p.
Qed.

(** ** The hierarchical walk *)

Lemma policy_permits_unfold pol context r permission principals :
  ACLSecurityPolicy.effective_principals pol r = Ok principals ->
  ACLSecurityPolicy.permits pol context r permission =
  ACLSecurityPolicy.location_loop pol permission principals (LocationIterator context).
Proof. intros H. unfold ACLSecurityPolicy.permits. by rewrite H. Qed.

Lemma location_loop_decided pol permission principals location rest d :
  ACLAuthorizer.permits (ACLAuthorizer.mk location) permission principals = Ok d ->
  ACLSecurityPolicy.location_loop pol permission principals (location :: rest)
  = Ok (Instance d).
Proof.
  intros H. simpl. unfold ACLSecurityPolicy.authorizer_factory. by rewrite H.
Qed.

Lemma location_loop_deferred pol permission principals location rest :
  ACLAuthorizer.permits (ACLAuthorizer.mk location) permission principals
  = Raise NoAuthorizationInformation ->
  ACLSecurityPolicy.location_loop pol permission principals (location :: rest)
  = ACLSecurityPolicy.location_loop pol permission principals rest.
Proof.
  intros H. simpl. unfold ACLSecurityPolicy.authorizer_factory. by rewrite H.
Qed.

Lemma LocationIterator_head context :
  exists rest, LocationIterator context = context :: rest.
Proof. destruct context as [a r [p|]]; simpl; eauto. Qed.

Lemma LocationIterator_parent a repr p :
  LocationIterator (Node a repr (Some p)) = Node a repr (Some p) :: LocationIterator p.
Proof. reflexivity. Qed.

Lemma location_loop_without_acl pol permission principals locations :
  forallb (fun n => match node_acl n with None => true | Some _ => false end)
    locations = true ->
  ACLSecurityPolicy.location_loop pol permission principals locations
  = Ok (Builtin (VBool false)).
Proof.
  induction locations as [|location rest IH]; [done|].
  intros H. simpl in H. apply andb_true_iff in H as [Hl Hrest].
  rewrite location_loop_deferred; [by apply IH|].
  apply permits_without_acl. unfold ACLAuthorizer.get_acl. simpl.
  by destruct (node_acl location).
Qed.

(** * The claims *)

(** C6. [flatten] gives a flat list of atomic values in the order of the
    input: a result of [flatten] holds atomic values only and flattens to
    itself, a list of atomic values flattens to itself, a string is kept
    whole (alone or as an element), a nested sequence contributes its own
    flattening in place, flattening distributes over concatenation, and
    [flatten(["a", ["b", ["c"]], "de"]) == ["a", "b", "c", "de"]]. *)
Theorem flatten_order_preserving_idempotent :
  (forall x r, flatten x = Ok r ->
     Forall (fun v => atomic v = true) r /\ flatten (VList r) = Ok r)
  /\ (forall l, Forall (fun v => atomic v = true) l -> flatten (VList l) = Ok l)
  /\ (forall s, flatten (VStr s) = Ok [VStr s])
  /\ (forall s l r, flatten (VList l) = Ok r ->
        flatten (VList (VStr s :: l)) = Ok (VStr s :: r))
  /\ (forall el, hasattr_iter el = true -> flatten (VList [el]) = flatten el)
  /\ (forall l1 l2, exists r1 r2,
        flatten (VList l1) = Ok r1 /\ flatten (VList l2) = Ok r2
        /\ flatten (VList (l1 ++ l2)) = Ok (r1 ++ r2))
  /\ flatten (VList [VStr "a"; VList [VStr "b"; VList [VStr "c"]]; VStr "de"])
     = Ok [VStr "a"; VStr "b"; VStr "c"; VStr "de"].
Proof.
  repeat split.
  - by eapply flatten_atomic.
  - rewrite flatten_VList. apply flatten_atomic in H.
    by rewrite flatten_loop_atoms.
  - intros l Hl. rewrite flatten_VList. by rewrite flatten_loop_atoms.
  - intros s l r Hr. rewrite flatten_VList in *.
    rewrite flatten_loop_cons. simpl.
    rewrite flatten_loop_acc, Hr. reflexivity.
  - intros el Hel. rewrite flatten_VList, flatten_loop_cons.
    destruct el; try discriminate Hel;
      cbn [hasattr_iter isinstance_basestring negb andb];
      match goal with |- bind ?m _ = _ => by destruct m end.
  - intros l1 l2.
    destruct (flatten_iterable (VList l1) eq_refl) as (r1 & H1 & _).
    destruct (flatten_iterable (VList l2) eq_refl) as (r2 & H2 & _).
    exists r1, r2. repeat split; try done.
    rewrite flatten_VList in *. by rewrite flatten_loop_app, H1, H2.
Qed.

Lemma flatten_order_preserving_idempotent_witness :
  Forall (fun v => atomic v = true) [VStr "a"; VStr "b"; VStr "c"; VStr "de"]
  /\ flatten (VList [VStr "a"; VStr "b"; VStr "c"; VStr "de"])
     = Ok [VStr "a"; VStr "b"; VStr "c"; VStr "de"].
Proof.
  apply (proj1 flatten_order_preserving_idempotent
           (VTuple [VStr "a"; VList [VStr "b"; VTuple [VStr "c"]]; VStr "de"])).
  reflexivity.
Defined.

(** C7. [Denied == v] holds exactly when [bool(v)] is false, so for
    [False], [0] and every other false object; [Allowed == v] holds exactly
    when [bool(v)] is true, so for [True], [1] and every other true object;
    neither comparison looks at the stored ACE, ACL, permission,
    principals or node; [bool(Allowed)] is true and [bool(Denied)] is
    false. *)
Theorem decision_equals_by_truth_value :
  forall (r r' : PermitsResult.t) (v : pyobj),
    (decision_eq (Denied r) v = true <-> obj_bool v = false)
    /\ (decision_eq (Allowed r) v = true <-> obj_bool v = true)
    /\ decision_eq (Denied r) (Builtin (VBool false)) = true
    /\ decision_eq (Denied r) (Builtin (VInt 0)) = true
    /\ decision_eq (Allowed r) (Builtin (VBool true)) = true
    /\ decision_eq (Allowed r) (Builtin (VInt 1)) = true
    /\ decision_eq (Denied r) v = decision_eq (Denied r') v
    /\ decision_eq (Allowed r) v = decision_eq (Allowed r') v
    /\ obj_bool (Instance (Allowed r)) = true
    /\ obj_bool (Instance (Denied r)) = false.
Proof.
  intros r r' v. unfold decision_eq.
  repeat split; try reflexivity; destruct (obj_bool v); simpl; congruence.
Qed.

(** C5. [effective_principals] is [[Everyone]] when the resolver yields no
    principal, and [[Everyone, Authenticated]] followed by the principals
    of the resolver, in its order, when it yields at least one; for a
    request whose only principal is george it is
    [[Everyone, Authenticated, "george"]], under both reference
    resolvers. *)
Theorem effective_principals_order :
  forall (get : request -> res value) (r : request),
    (get r = Ok (VList []) ->
       ACLSecurityPolicy.effective_principals (ACLSecurityPolicy.mk get) r
       = Ok [Everyone])
    /\ (forall id ids, get r = Ok (VList (id :: ids)) ->
          ACLSecurityPolicy.effective_principals (ACLSecurityPolicy.mk get) r
          = Ok (Everyone :: Authenticated :: id :: ids))
    /\ ACLSecurityPolicy.effective_principals RemoteUserACLSecurityPolicy
         george_request = Ok [Everyone; Authenticated; VStr "george"]
    /\ ACLSecurityPolicy.effective_principals RepozeWhoIdentityACLSecurityPolicy
         who_request_no_groups = Ok [Everyone; Authenticated; VStr "george"]
    /\ ACLSecurityPolicy.effective_principals RemoteUserACLSecurityPolicy
         anonymous_request = Ok [Everyone].
Proof.
  intros get r. unfold ACLSecurityPolicy.effective_principals.
  repeat split; try (vm_compute; reflexivity).
  - intros H. simpl. by rewrite H.
  - intros id ids H. simpl. by rewrite H.
Qed.

Lemma effective_principals_order_witness :
  ACLSecurityPolicy.effective_principals
    (ACLSecurityPolicy.mk get_who_principals) who_request
  = Ok [Everyone; Authenticated; george; VStr "admins"; VStr "staff"].
Proof.
  apply (proj1 (proj2 (effective_principals_order get_who_principals who_request))
           george [VStr "admins"; VStr "staff"]).
  vm_compute. reflexivity.
Defined.

(** C8. The remote-user resolver returns the one-element list of the
    environment's [REMOTE_USER] value when that value is true, and the
    empty list when it is false or missing.  The identity resolver returns
    the empty list when the environment has no identity, and for an
    identity dict with a user id returns the user id followed by the
    elements of its group list, or the user id alone when it has no group
    list. *)
Theorem reference_resolvers :
  forall (r : request),
    (forall v, environ r !! "REMOTE_USER" = Some v -> py_bool v = true ->
       get_remoteuser r = Ok (VList [v]))
    /\ (forall v, environ r !! "REMOTE_USER" = Some v -> py_bool v = false ->
          get_remoteuser r = Ok (VList []))
    /\ (environ r !! "REMOTE_USER" = None -> get_remoteuser r = Ok (VList []))
    /\ (environ r !! "repoze.who.identity" = None ->
          get_who_principals r = Ok (VList []))
    /\ (forall items userid groups,
          environ r !! "repoze.who.identity" = Some (VDict items) ->
          dict_get items "repoze.who.userid" = Some userid ->
          dict_get items "groups" = Some (VList groups) ->
          get_who_principals r = Ok (VList (userid :: groups)))
    /\ (forall items userid,
          environ r !! "repoze.who.identity" = Some (VDict items) ->
          dict_get items "repoze.who.userid" = Some userid ->
          dict_get items "groups" = None ->
          get_who_principals r = Ok (VList [userid])).
Proof.
  intros r. unfold get_remoteuser, get_who_principals, environ_get.
  repeat split.
  - intros v -> Hv. by rewrite Hv.
  - intros v -> Hv. by rewrite Hv.
  - by intros ->.
  - by intros ->.
  - intros items userid groups -> Hu Hg.
    destruct items as [|kv items]; [discriminate Hu|].
    cbn [py_bool length Nat.eqb negb getitem get_method].
    by rewrite Hu, Hg.
  - intros items userid -> Hu Hg.
    destruct items as [|kv items]; [discriminate Hu|].
    cbn [py_bool length Nat.eqb negb getitem get_method].
    by rewrite Hu, Hg.
Qed.

Lemma reference_resolvers_witness :
  get_remoteuser george_request = Ok (VList [george])
  /\ get_who_principals who_request
     = Ok (VList [george; VStr "admins"; VStr "staff"]).
Proof.
  split.
  - apply (proj1 (reference_resolvers george_request) george);
      vm_compute; reflexivity.
  - apply (proj1 (proj2 (proj2 (proj2 (proj2 (reference_resolvers who_request)))))
             [("repoze.who.userid", george);
              ("groups", VList [VStr "admins"; VStr "staff"])]
             george [VStr "admins"; VStr "staff"]);
      vm_compute; reflexivity.
Defined.

(** C9. When no security policy is registered, [has_permission] returns
    the plain boolean [True] for every permission, context and request. *)
Theorem has_permission_without_policy :
  forall (reg : registry) (permission : value) (context : node) (r : request),
    queryUtility_ISecurityPolicy reg = None ->
    has_permission reg permission context r = Ok (Builtin (VBool true)).
Proof. intros reg permission context r H. unfold has_permission. by rewrite H. Qed.

Lemma has_permission_without_policy_witness :
  has_permission {| queryUtility_ISecurityPolicy := None |} edit bare_document
    anonymous_request = Ok (Builtin (VBool true)).
Proof. apply has_permission_without_policy. reflexivity. Defined.

(** C10. A node whose [__acl__] is [None] is treated as a node without
    [__acl__]: the authorizer raises [NoAuthorizationInformation] for both,
    so it returns no decision, and the policy gives for such a node what it
    gives for the same node without the attribute, which for a node with a
    parent is what it gives for the parent. *)
Theorem null_acl_is_no_acl :
  forall (pol : ACLSecurityPolicy.t) (r : request) (repr : string)
         (parent : option node) (permission : value) (principals : list value),
    ACLAuthorizer.permits (ACLAuthorizer.mk (Node (Some VNone) repr parent))
      permission principals = Raise NoAuthorizationInformation
    /\ ACLAuthorizer.permits (ACLAuthorizer.mk (Node None repr parent))
         permission principals = Raise NoAuthorizationInformation
    /\ (forall d, ACLAuthorizer.permits (ACLAuthorizer.mk (Node (Some VNone) repr parent))
                    permission principals <> Ok d)
    /\ ACLSecurityPolicy.permits pol (Node (Some VNone) repr parent) r permission
       = ACLSecurityPolicy.permits pol (Node None repr parent) r permission
    /\ (forall p,
          ACLSecurityPolicy.permits pol (Node (Some VNone) repr (Some p)) r permission
          = ACLSecurityPolicy.permits pol p r permission).
Proof.
  intros pol r repr parent permission principals.
  assert (Hnull : forall parent principals,
    ACLAuthorizer.permits (ACLAuthorizer.mk (Node (Some VNone) repr parent))
      permission principals = Raise NoAuthorizationInformation) by done.
  assert (Hnone : forall parent principals,
    ACLAuthorizer.permits (ACLAuthorizer.mk (Node None repr parent))
      permission principals = Raise NoAuthorizationInformation) by done.
  repeat split; try done.
  - unfold ACLSecurityPolicy.permits.
    destruct (ACLSecurityPolicy.effective_principals pol r) as [ps|e]; [|done].
    cbn [bind]. destruct parent as [p|].
    + by rewrite !LocationIterator_parent, !location_loop_deferred.
    + cbn [LocationIterator]. by rewrite !location_loop_deferred.
Qed.

(** C4. A node without [__acl__] passes the question to its parent: the
    policy gives for it what it gives for the parent.  When no node of the
    ancestor chain, root included, has [__acl__], and the resolver gives
    the principals, the policy returns the plain boolean [False]. *)
Theorem missing_acl_defers_to_parent :
  forall (pol : ACLSecurityPolicy.t) (r : request) (permission : value),
    (forall repr parent,
       ACLSecurityPolicy.permits pol (Node None repr (Some parent)) r permission
       = ACLSecurityPolicy.permits pol parent r permission)
    /\ (forall context principals,
          ACLSecurityPolicy.effective_principals pol r = Ok principals ->
          chain_without_acl context = true ->
          ACLSecurityPolicy.permits pol context r permission
          = Ok (Builtin (VBool false))).
Proof.
  intros pol r permission. split.
  - intros repr parent. unfold ACLSecurityPolicy.permits.
    destruct (ACLSecurityPolicy.effective_principals pol r) as [ps|e]; [|done].
    cbn [bind]. rewrite LocationIterator_parent.
    by rewrite location_loop_deferred.
  - intros context principals Hp Hc.
    rewrite (policy_permits_unfold _ _ _ _ _ Hp).
    by apply location_loop_without_acl.
Qed.

Lemma missing_acl_defers_to_parent_witness :
  ACLSecurityPolicy.permits RemoteUserACLSecurityPolicy bare_document
    george_request view = Ok (Builtin (VBool false)).
Proof.
  apply (proj2 (missing_acl_defers_to_parent RemoteUserACLSecurityPolicy
                  george_request view)
           bare_document [Everyone; Authenticated; george]);
    vm_compute; reflexivity.
Defined.

(** C3. A node whose ACL is present and holds no matching ACE (an empty
    ACL among them) gets from the authorizer a [Denied] whose ACE is
    [None] and whose ACL is the one consulted, and the policy returns that
    decision whatever the parent of the node is. *)
Theorem unmatched_acl_denies_and_stops :
  forall (pol : ACLSecurityPolicy.t) (r : request) (acl : value) (repr : string)
         (parent : option node) (permission : value)
         (principals flat aces : list value),
    py_iter acl = Ok aces ->
    ACLSecurityPolicy.effective_principals pol r = Ok principals ->
    flatten (VTuple principals) = Ok flat ->
    forallb (ace_passed_over permission flat) aces = true ->
    let context := Node (Some acl) repr parent in
    let denied := implicit_deny acl permission (VTuple principals) context in
    ACLAuthorizer.permits (ACLAuthorizer.mk context) permission principals
    = Ok denied
    /\ PermitsResult.ace (fields denied) = VNone
    /\ PermitsResult.acl (fields denied) = acl
    /\ nonzero denied = false
    /\ ACLSecurityPolicy.permits pol context r permission = Ok (Instance denied).
Proof.
  intros pol r acl repr parent permission principals flat aces Hit Hp Hf Hall
    context denied.
  assert (Hd : ACLAuthorizer.permits (ACLAuthorizer.mk context) permission principals
               = Ok denied).
  { rewrite (permits_with_acl (ACLAuthorizer.mk context) acl _ _ aces eq_refl Hit).
    rewrite <- (app_nil_r aces).
    by rewrite (ace_loop_all_passed_over _ _ _ _ _ _ _ Hf Hall). }
  repeat split; try done.
  rewrite (policy_permits_unfold _ _ _ _ _ Hp).
  destruct (LocationIterator_head context) as [rest ->].
  by apply location_loop_decided.
Qed.

Lemma unmatched_acl_denies_and_stops_witness :
  ACLAuthorizer.permits (ACLAuthorizer.mk empty_acl_document) view [Everyone]
  = Ok (implicit_deny (VList []) view (VTuple [Everyone]) empty_acl_document)
  /\ ACLSecurityPolicy.permits RemoteUserACLSecurityPolicy empty_acl_document
       anonymous_request view
     = Ok (Instance (implicit_deny (VList []) view (VTuple [Everyone])
                       empty_acl_document)).
Proof.
  assert (H := unmatched_acl_denies_and_stops RemoteUserACLSecurityPolicy
                 anonymous_request (VList []) "<document>" (Some folder) view
                 [Everyone] [Everyone] [] eq_refl eq_refl eq_refl eq_refl).
  exact (conj (proj1 H) (proj2 (proj2 (proj2 (proj2 H))))).
Defined.

(** The same on an ACL that names another permission, below a root that
    would allow. *)
Example edit_only_document_denies_view :
  ACLSecurityPolicy.permits RemoteUserACLSecurityPolicy edit_only_document
    anonymous_request view
  = Ok (Instance (implicit_deny (VList [VTuple [Allow; Everyone; edit]]) view
                    (VTuple [Everyone]) edit_only_document))
  /\ exists r, ACLSecurityPolicy.permits RemoteUserACLSecurityPolicy folder
                 anonymous_request view = Ok (Instance (Allowed r)).
Proof. split; [vm_compute; reflexivity | eexists; vm_compute; reflexivity]. Qed.

(** C2. The first ACE of the ACL that matches a flattened principal and
    lists the permission decides: when the ACEs before it are passed over,
    the authorizer returns the decision of that ACE, [Allowed] (true) when
    its action is [Allow] and [Denied] (false) when it is [Deny], whatever
    ACEs follow it. *)
Theorem first_match_wins :
  forall (context : node) (acl permission : value)
         (principals flat earlier later : list value)
         (ace action ace_principal ace_permissions : value),
    node_acl context = Some acl ->
    py_iter acl = Ok (earlier ++ ace :: later) ->
    flatten (VTuple principals) = Ok flat ->
    forallb (ace_passed_over permission flat) earlier = true ->
    unpack3 ace = Ok (action, ace_principal, ace_permissions) ->
    ace_matches permission flat ace = true ->
    let record := PermitsResult_init ace acl permission (VTuple principals) context in
    let result :=
      ACLAuthorizer.permits (ACLAuthorizer.mk context) permission principals in
    result = Ok (decision_of action ace acl permission (VTuple principals) context)
    /\ (action = Allow ->
          result = Ok (Allowed record) /\ obj_bool (Instance (Allowed record)) = true)
    /\ (action = Deny ->
          result = Ok (Denied record) /\ obj_bool (Instance (Denied record)) = false).
Proof.
  intros context acl permission principals flat earlier later ace action
    ace_principal ace_permissions Hacl Hit Hf Hearlier Hu Hm record result.
  assert (Hr : result = Ok (decision_of action ace acl permission
                              (VTuple principals) context)).
  { unfold result.
    rewrite (permits_with_acl (ACLAuthorizer.mk context) acl _ _ _ Hacl Hit).
    rewrite (ace_loop_all_passed_over _ _ _ _ _ _ _ Hf Hearlier).
    by rewrite (ace_loop_match _ _ _ _ _ _ _ _ _ _ Hf Hu Hm). }
  split; [done|]. split; intros ->; by rewrite Hr.
Qed.

Lemma first_match_wins_witness :
  ACLAuthorizer.permits
    (ACLAuthorizer.mk (Node (Some george_then_deny_then_junk) "<document>" None))
    view [Everyone]
  = Ok (Denied (PermitsResult_init deny_everyone_view george_then_deny_then_junk
                  view (VTuple [Everyone])
                  (Node (Some george_then_deny_then_junk) "<document>" None))).
Proof.
  refine (proj1 (proj2 (proj2
            (first_match_wins
               (Node (Some george_then_deny_then_junk) "<document>" None)
               george_then_deny_then_junk view [Everyone] [Everyone]
               [allow_george_view] [VInt 0] deny_everyone_view
               Deny Everyone view _ _ _ _ _ _)) eq_refl));
    vm_compute; reflexivity.
Defined.

(** The ACL [[(Allow, "george", "view"), (Deny, Everyone, "view")]]: george
    is allowed to view by the first ACE, a request without principal is
    denied by the second. *)
Example george_then_deny_outcomes :
  let document := Node (Some george_then_deny) "<document>" None in
  ACLSecurityPolicy.permits RemoteUserACLSecurityPolicy document george_request view
  = Ok (Instance (Allowed (PermitsResult_init allow_george_view george_then_deny
                             view (VTuple [Everyone; Authenticated; george])
                             document)))
  /\ ACLSecurityPolicy.permits RemoteUserACLSecurityPolicy document
       anonymous_request view
     = Ok (Instance (Denied (PermitsResult_init deny_everyone_view george_then_deny
                               view (VTuple [Everyone]) document))).
Proof. split; vm_compute; reflexivity. Qed.

(** C1, as the specification states it, fails: the principal field
    [["bob", ["george"]]] flattens to a list that holds george, the caller
    is george and the permission is listed, yet the authorizer finds no
    matching ACE and returns the implicit deny. *)
Lemma nested_ace_principal_is_not_flattened :
  spec_principal_matches nested_group [george] = true
  /\ flatten (VTuple [george]) = Ok [george]
  /\ permission_listed view view = true
  /\ ACLAuthorizer.permits (ACLAuthorizer.mk group_document) view [george]
     = Ok (implicit_deny (VList [allow_group_view]) view (VTuple [george])
             group_document)
  /\ ~ (exists d,
          ACLAuthorizer.permits (ACLAuthorizer.mk group_document) view [george] = Ok d
          /\ PermitsResult.ace (fields d) = allow_group_view).
Proof.
  repeat split; try (vm_compute; reflexivity).
  intros (d & Hd & Hace). vm_compute in Hd. inversion Hd; subst d.
  vm_compute in Hace. discriminate Hace.
Qed.

(** C1, amended.  The principal field of an ACE is compared whole, with
    [==], against each atomic value of the flattened principals of the
    caller; only the permission field and the principals of the caller are
    flattened.  So an ACE whose principal field equals one of those
    values and whose flattened permission field lists the permission
    decides, an ACE whose principal field equals none of them is passed
    over, an ACE whose principal field is a sequence is always passed
    over, and for a principal field that is a string flattening it would
    change nothing. *)
Theorem ace_principal_compared_whole :
  forall (self : ACLAuthorizer.t) (acl permission : value)
         (principals flat aces : list value)
         (ace action ace_principal ace_permissions : value),
    unpack3 ace = Ok (action, ace_principal, ace_permissions) ->
    flatten (VTuple principals) = Ok flat ->
    (principal_matches ace_principal flat = true ->
     permission_listed permission ace_permissions = true ->
     ACLAuthorizer.ace_loop self acl permission (VTuple principals) (ace :: aces)
     = Ok (decision_of action ace acl permission (VTuple principals)
             (ACLAuthorizer.context self)))
    /\ (principal_matches ace_principal flat = false ->
        ACLAuthorizer.ace_loop self acl permission (VTuple principals) (ace :: aces)
        = ACLAuthorizer.ace_loop self acl permission (VTuple principals) aces)
    /\ (hasattr_iter ace_principal = true ->
        principal_matches ace_principal flat = false
        /\ ACLAuthorizer.ace_loop self acl permission (VTuple principals) (ace :: aces)
           = ACLAuthorizer.ace_loop self acl permission (VTuple principals) aces)
    /\ (forall s, ace_principal = VStr s ->
        spec_principal_matches ace_principal flat
        = principal_matches ace_principal flat).
Proof.
  intros self acl permission principals flat aces ace action ace_principal
    ace_permissions Hu Hf.
  assert (Hover : principal_matches ace_principal flat = false ->
    ACLAuthorizer.ace_loop self acl permission (VTuple principals) (ace :: aces)
    = ACLAuthorizer.ace_loop self acl permission (VTuple principals) aces).
  { intros Hno. apply (ace_loop_passed_over _ _ _ _ flat); [done|].
    unfold ace_passed_over. by rewrite Hu, Hno. }
  split; [|split; [done|split]].
  - intros Hp Hl. apply (ace_loop_match _ _ _ _ flat _ _ _ ace_principal
                           ace_permissions); try done.
    unfold ace_matches. by rewrite Hu, Hp, Hl.
  - intros Hit.
    assert (Hno : principal_matches ace_principal flat = false).
    { apply sequence_matches_no_atom; [done|]. by eapply flatten_atomic. }
    split; [done|by apply Hover].
  - intros s ->. unfold spec_principal_matches, principal_matches.
    cbn [flatten isinstance_basestring existsb]. by rewrite orb_false_r.
Qed.

Lemma ace_principal_compared_whole_witness :
  principal_matches nested_group [george] = false
  /\ ACLAuthorizer.ace_loop (ACLAuthorizer.mk group_document)
       (VList [allow_group_view]) view (VTuple [george]) [allow_group_view]
     = ACLAuthorizer.ace_loop (ACLAuthorizer.mk group_document)
         (VList [allow_group_view]) view (VTuple [george]) [].
Proof.
  refine (proj1 (proj2 (proj2
            (ace_principal_compared_whole (ACLAuthorizer.mk group_document)
               (VList [allow_group_view]) view [george] [george] []
               allow_group_view Allow nested_group view _ _))) _);
    vm_compute; reflexivity.
Defined.

(** * Further properties *)

(** ** More facts about [flatten] *)

Lemma flatten_raises_TypeError x e : flatten x = Raise e -> e = TypeError.
Proof.
  intros H. destruct (hasattr_iter x) eqn:Hit.
  - destruct (flatten_iterable x Hit) as (r & Hr & _). congruence.
  - destruct x; try discriminate Hit; simpl in H; congruence.
Qed.

Lemma flatten_loop_nested rec sub m l2 :
  rec sub = flatten_loop rec [] m ->
  hasattr_iter sub = true ->
  isinstance_basestring sub = false ->
  flatten_loop rec [] (sub :: l2) = flatten_loop rec [] (m ++ l2).
Proof.
  intros Hrec Hit Hstr.
  rewrite flatten_loop_cons, Hit, Hstr, Hrec, flatten_loop_app. simpl.
  destruct (flatten_loop rec [] m) as [r1|e]; simpl; [|done].
  by rewrite (flatten_loop_acc rec r1 l2).
Qed.

(** X1. [flatten] of an object that is neither a string nor iterable
    ([None], a bool, a number) raises [TypeError]; the same object as the
    element of a list or tuple is kept as it is. *)
Theorem flatten_scalar_raises_element_kept :
  forall x,
    hasattr_iter x = false ->
    isinstance_basestring x = false ->
    flatten x = Raise TypeError
    /\ flatten (VList [x]) = Ok [x]
    /\ flatten (VTuple [x]) = Ok [x].
Proof. intros x Hit Hstr. destruct x; try discriminate; by repeat split. Qed.

Lemma flatten_scalar_raises_element_kept_witness :
  flatten VNone = Raise TypeError
  /\ flatten (VList [VNone]) = Ok [VNone]
  /\ flatten (VTuple [VNone]) = Ok [VNone].
Proof. apply flatten_scalar_raises_element_kept; reflexivity. Defined.

(** X2. A list or tuple nested in a list can be replaced by its elements
    in place without changing what [flatten] gives (so an empty nested
    sequence contributes nothing), and a tuple flattens as the list of
    the same elements does. *)
Theorem flatten_splices_nested :
  forall l1 m l2,
    flatten (VList (l1 ++ VList m :: l2)) = flatten (VList (l1 ++ m ++ l2))
    /\ flatten (VList (l1 ++ VTuple m :: l2)) = flatten (VList (l1 ++ m ++ l2))
    /\ flatten (VList (l1 ++ VList [] :: l2)) = flatten (VList (l1 ++ l2))
    /\ flatten (VTuple l1) = flatten (VList l1).
Proof.
  intros l1 m l2. rewrite !flatten_VList, !flatten_VTuple.
  rewrite !(flatten_loop_app flatten l1).
  rewrite (flatten_loop_nested flatten (VList m) m l2) by done.
  rewrite (flatten_loop_nested flatten (VTuple m) m l2) by done.
  rewrite (flatten_loop_nested flatten (VList []) [] l2) by done.
  done.
Qed.

(** ** More facts about the node authorizer *)

Section principal_loop_closed_form.
Variable self : ACLAuthorizer.t.
Variables ace acl permission principals : value.
Variables ace_action ace_principal ace_permissions : value.

Local Abbreviation ploop' :=
  (ACLAuthorizer.principal_loop self ace acl permission principals
     ace_action ace_principal ace_permissions).

Lemma principal_loop_raises flat e :
  principal_matches ace_principal flat = true ->
  flatten ace_permissions = Raise e ->
  ploop' flat = Raise e.
Proof.
  unfold principal_matches. intros Hm Hf.
  induction flat as [|p flat IH]; simpl in *; [done|].
  destruct (py_eq ace_principal p); [by rewrite Hf | by apply IH].
Qed.

(** The inner loop, without the loop. *)
Lemma principal_loop_closed flat :
  ploop' flat =
  if principal_matches ace_principal flat then
    permissions <- flatten ace_permissions ;;
    Ok (if py_in permission permissions
        then Some (decision_of ace_action ace acl permission principals
                     (ACLAuthorizer.context self))
        else None)
  else Ok None.
Proof.
  destruct (principal_matches ace_principal flat) eqn:Hm.
  - destruct (flatten ace_permissions) as [permissions|e] eqn:Hf; simpl.
    + destruct (py_in permission permissions) eqn:Hin.
      * by apply (principal_loop_match _ _ _ _ _ _ _ _ flat permissions).
      * by apply (principal_loop_no_permission _ _ _ _ _ _ _ _ flat permissions).
    + by apply principal_loop_raises.
  - by apply principal_loop_no_principal.
Qed.

End principal_loop_closed_form.

Lemma unpack3_raises x e : unpack3 x = Raise e -> e = TypeError \/ e = ValueError.
Proof.
  unfold unpack3. destruct (py_iter x) as [els|e'] eqn:Hit; simpl.
  - destruct els as [|a [|b [|c [|? ?]]]]; intros H; inversion H; auto.
  - intros H. inversion H; subst. destruct x; simpl in Hit; inversion Hit; auto.
Qed.

Lemma unpack3_not_None x parts : unpack3 x = Ok parts -> x <> VNone.
Proof. intros H ->. discriminate H. Qed.

(** Every decision of the loop over the ACEs comes from an ACE that
    matches after ACEs that were passed over, or from the end of the loop
    after all ACEs were passed over. *)
Lemma ace_loop_ok_inv self acl permission principals flat aces d :
  flatten principals = Ok flat ->
  ACLAuthorizer.ace_loop self acl permission principals aces = Ok d ->
  (forallb (ace_passed_over permission flat) aces = true
   /\ d = implicit_deny acl permission principals (ACLAuthorizer.context self))
  \/ (exists earlier ace later action ace_principal ace_permissions,
        aces = earlier ++ ace :: later
        /\ forallb (ace_passed_over permission flat) earlier = true
        /\ unpack3 ace = Ok (action, ace_principal, ace_permissions)
        /\ ace_matches permission flat ace = true
        /\ d = decision_of action ace acl permission principals
                 (ACLAuthorizer.context self)).
Proof.
  intros Hf. induction aces as [|ace aces IH]; intros Hd.
  - left. simpl in Hd. inversion Hd. done.
  - destruct (unpack3 ace) as [[[a p] ps]|e] eqn:Hu;
      [|simpl in Hd; rewrite Hu in Hd; discriminate Hd].
    rewrite (ace_loop_cons _ _ _ _ _ _ _ _ _ _ Hu Hf), principal_loop_closed in Hd.
    assert (Hnext : ace_passed_over permission flat ace = true ->
                    ACLAuthorizer.ace_loop self acl permission principals aces = Ok d ->
                    (forallb (ace_passed_over permission flat) (ace :: aces) = true
                     /\ d = implicit_deny acl permission principals
                              (ACLAuthorizer.context self))
                    \/ (exists earlier ace0 later action ace_principal ace_permissions,
                          ace :: aces = earlier ++ ace0 :: later
                          /\ forallb (ace_passed_over permission flat) earlier = true
                          /\ unpack3 ace0 = Ok (action, ace_principal, ace_permissions)
                          /\ ace_matches permission flat ace0 = true
                          /\ d = decision_of action ace0 acl permission principals
                                   (ACLAuthorizer.context self))).
    { intros Hover Hrest. destruct (IH Hrest) as [[Hall ->]|Hex].
      - left. simpl. by rewrite Hover, Hall.
      - right. destruct Hex as (earlier & ace0 & later & a0 & p0 & ps0 & -> & He & H). 
        exists (ace :: earlier), ace0, later, a0, p0, ps0.
        split; [done|]. split; [|done]. simpl. by rewrite Hover, He. }
    destruct (principal_matches p flat) eqn:Hm.
    + destruct (flatten ps) as [permissions|e] eqn:Hps; [|discriminate Hd].
      simpl in Hd. destruct (py_in permission permissions) eqn:Hin.
      * right. exists [], ace, aces, a, p, ps. inversion Hd.
        repeat split; try done.
        unfold ace_matches, permission_listed. by rewrite Hu, Hm, Hps, Hin.
      * apply Hnext; [|done].
        unfold ace_passed_over. by rewrite Hu, Hm, Hps, Hin.
    + simpl in Hd. apply Hnext; [|done].
      unfold ace_passed_over. by rewrite Hu, Hm.
Qed.

(** The loop over the ACEs raises the interpreter's errors only. *)
Lemma ace_loop_raises_inv self acl permission principals aces e :
  ACLAuthorizer.ace_loop self acl permission principals aces = Raise e ->
  e = TypeError \/ e = ValueError.
Proof.
  induction aces as [|ace aces IH]; intros H; [discriminate H|].
  simpl in H.
  destruct (unpack3 ace) as [[[a p] ps]|e'] eqn:Hu; simpl in H;
    [|inversion H; subst; by eapply unpack3_raises].
  destruct (flatten principals) as [flat|e'] eqn:Hf; simpl in H;
    [|inversion H; subst; left; by eapply flatten_raises_TypeError].
  rewrite principal_loop_closed in H.
  destruct (principal_matches p flat); simpl in H; [|by apply IH].
  destruct (flatten ps) as [permissions|e'] eqn:Hps; simpl in H;
    [|inversion H; subst; left; by eapply flatten_raises_TypeError].
  destruct (py_in permission permissions); [discriminate H | by apply IH].
Qed.

Lemma ace_loop_raises self acl permission principals flat earlier ace later e :
  flatten principals = Ok flat ->
  forallb (ace_passed_over permission flat) earlier = true ->
  ace_raises flat ace = Some e ->
  ACLAuthorizer.ace_loop self acl permission principals (earlier ++ ace :: later)
  = Raise e.
Proof.
  intros Hf Hearlier Hr.
  rewrite (ace_loop_all_passed_over _ _ _ _ _ _ _ Hf Hearlier).
  unfold ace_raises in Hr.
  destruct (unpack3 ace) as [[[a p] ps]|e'] eqn:Hu.
  - rewrite (ace_loop_cons _ _ _ _ _ _ _ _ _ _ Hu Hf), principal_loop_closed.
    destruct (principal_matches p flat); [|discriminate Hr].
    destruct (flatten ps); [discriminate Hr|]. by inversion Hr.
  - simpl. rewrite Hu. by inversion Hr.
Qed.

Lemma get_acl_None_iff self :
  ACLAuthorizer.get_acl self VNone = VNone <->
  node_acl (ACLAuthorizer.context self) = None
  \/ node_acl (ACLAuthorizer.context self) = Some VNone.
Proof.
  unfold ACLAuthorizer.get_acl.
  destruct (node_acl (ACLAuthorizer.context self)) as [acl|].
  - split; [intros ->; by right | intros [H|H]; congruence].
  - split; [by left | done].
Qed.

Lemma permits_raises_inv self permission principals e :
  ACLAuthorizer.permits self permission principals = Raise e ->
  (e = NoAuthorizationInformation /\ ACLAuthorizer.get_acl self VNone = VNone)
  \/ ((e = TypeError \/ e = ValueError) /\ ACLAuthorizer.get_acl self VNone <> VNone).
Proof.
  unfold ACLAuthorizer.permits.
  destruct (ACLAuthorizer.get_acl self VNone) as [| | | | | |] eqn:Hacl;
    cbn [is_None py_iter bind]; intros H;
    try (inversion H; subst; by auto);
    right; (split; [|done]);
    try (by eapply ace_loop_raises_inv).
Qed.

Lemma permits_ok_inv self permission principals d :
  ACLAuthorizer.permits self permission principals = Ok d ->
  exists acl aces flat,
    node_acl (ACLAuthorizer.context self) = Some acl
    /\ ACLAuthorizer.get_acl self VNone = acl
    /\ py_iter acl = Ok aces
    /\ flatten (VTuple principals) = Ok flat
    /\ ACLAuthorizer.ace_loop self acl permission (VTuple principals) aces = Ok d.
Proof.
  unfold ACLAuthorizer.permits, ACLAuthorizer.get_acl.
  destruct (flatten_principals_total principals) as (flat & Hflat & _).
  destruct (node_acl (ACLAuthorizer.context self)) as [acl|]; [|discriminate].
  intros H. exists acl.
  destruct (is_None acl); [discriminate H|].
  destruct (py_iter acl) as [aces|e]; [|discriminate H].
  exists aces, flat. done.
Qed.

Lemma py_eq_Allow action : py_eq action Allow = true -> action = Allow.
Proof.
  destruct action; try discriminate. simpl. intros H.
  apply String.eqb_eq in H. by subst.
Qed.

Lemma principal_matches_ext ace_principal flat1 flat2 :
  (forall x, In x flat1 <-> In x flat2) ->
  principal_matches ace_principal flat1 = principal_matches ace_principal flat2.
Proof.
  intros H. unfold principal_matches. apply Bool.eq_iff_eq_true.
  rewrite !existsb_exists.
  split; intros (x & Hin & Hx); exists x; (split; [by apply H | done]).
Qed.

Lemma ace_loop_verdict_ext self acl permission principals1 principals2
  flat1 flat2 aces :
  flatten principals1 = Ok flat1 ->
  flatten principals2 = Ok flat2 ->
  (forall x, In x flat1 <-> In x flat2) ->
  res_map verdict (ACLAuthorizer.ace_loop self acl permission principals1 aces)
  = res_map verdict (ACLAuthorizer.ace_loop self acl permission principals2 aces).
Proof.
  intros Hf1 Hf2 Hsame. induction aces as [|ace aces IH]; [done|].
  destruct (unpack3 ace) as [[[a p] ps]|e] eqn:Hu.
  - rewrite (ace_loop_cons _ _ _ _ _ _ _ _ _ _ Hu Hf1).
    rewrite (ace_loop_cons _ _ _ _ _ _ _ _ _ _ Hu Hf2).
    rewrite !principal_loop_closed.
    rewrite (principal_matches_ext p flat1 flat2 Hsame).
    destruct (principal_matches p flat2); simpl; [|done].
    destruct (flatten ps) as [permissions|e]; simpl; [|done].
    destruct (py_in permission permissions); [|done].
    unfold decision_of. by destruct (py_eq a Allow).
  - simpl. by rewrite Hu.
Qed.

(** X3. Every decision that the authorizer returns names the request it
    answers: the permission asked, the tuple of principals as the caller
    passed it (not flattened), the ACL of the node, which is its
    [__acl__], and the [repr] of the node. *)
Theorem decision_names_its_request :
  forall (self : ACLAuthorizer.t) (permission : value) (principals : list value)
         (d : decision),
    ACLAuthorizer.permits self permission principals = Ok d ->
    PermitsResult.permission (fields d) = permission
    /\ PermitsResult.principals (fields d) = VTuple principals
    /\ node_acl (ACLAuthorizer.context self) = Some (PermitsResult.acl (fields d))
    /\ PermitsResult.context_repr (fields d) = node_repr (ACLAuthorizer.context self).
Proof.
  intros self permission principals d H.
  destruct (permits_ok_inv _ _ _ _ H) as (acl & aces & flat & Hacl & _ & _ & Hf & Hd).
  destruct (ace_loop_ok_inv _ _ _ _ _ _ _ Hf Hd)
    as [[_ ->]|(earlier & ace & later & a & p & ps & _ & _ & _ & _ & ->)].
  - done.
  - unfold decision_of. by destruct (py_eq a Allow).
Qed.

Lemma decision_names_its_request_witness :
  let d := implicit_deny (VList []) view (VTuple [VList [george]]) empty_acl_document in
  PermitsResult.permission (fields d) = view
  /\ PermitsResult.principals (fields d) = VTuple [VList [george]]
  /\ node_acl empty_acl_document = Some (PermitsResult.acl (fields d))
  /\ PermitsResult.context_repr (fields d) = node_repr empty_acl_document.
Proof.
  apply (decision_names_its_request (ACLAuthorizer.mk empty_acl_document) view
           [VList [george]]).
  reflexivity.
Defined.

(** X4. The authorizer returns [Allowed] only when the ACL holds an ACE
    whose action is [Allow], whose principal field equals one of the
    flattened principals of the caller and whose flattened permission
    field lists the permission, every ACE before it being passed over;
    that ACE is the one the decision records. *)
Theorem allowed_only_by_matching_allow_ace :
  forall (self : ACLAuthorizer.t) (permission : value) (principals : list value)
         (r : PermitsResult.t),
    ACLAuthorizer.permits self permission principals = Ok (Allowed r) ->
    exists acl flat earlier ace later ace_principal ace_permissions,
      node_acl (ACLAuthorizer.context self) = Some acl
      /\ flatten (VTuple principals) = Ok flat
      /\ py_iter acl = Ok (earlier ++ ace :: later)
      /\ forallb (ace_passed_over permission flat) earlier = true
      /\ unpack3 ace = Ok (Allow, ace_principal, ace_permissions)
      /\ principal_matches ace_principal flat = true
      /\ permission_listed permission ace_permissions = true
      /\ PermitsResult.ace r = ace.
Proof.
  intros self permission principals r H.
  destruct (permits_ok_inv _ _ _ _ H) as (acl & aces & flat & Hacl & _ & Hit & Hf & Hd).
  destruct (ace_loop_ok_inv _ _ _ _ _ _ _ Hf Hd)
    as [[_ Heq]|(earlier & ace & later & a & p & ps & -> & He & Hu & Hm & Heq)].
  - discriminate Heq.
  - unfold decision_of in Heq. destruct (py_eq a Allow) eqn:Ha; [|discriminate Heq].
    apply py_eq_Allow in Ha. subst a. inversion Heq; subst r.
    unfold ace_matches in Hm. rewrite Hu in Hm.
    apply andb_true_iff in Hm as [Hp Hl].
    exists acl, flat, earlier, ace, later, p, ps. done.
Qed.

Lemma allowed_only_by_matching_allow_ace_witness :
  exists acl flat earlier ace later ace_principal ace_permissions,
    node_acl open_root = Some acl
    /\ flatten (VTuple [george; Everyone]) = Ok flat
    /\ py_iter acl = Ok (earlier ++ ace :: later)
    /\ forallb (ace_passed_over view flat) earlier = true
    /\ unpack3 ace = Ok (Allow, ace_principal, ace_permissions)
    /\ principal_matches ace_principal flat = true
    /\ permission_listed view ace_permissions = true
    /\ PermitsResult.ace
         (PermitsResult_init allow_everyone_view (VList [allow_everyone_view]) view
            (VTuple [george; Everyone]) open_root) = ace.
Proof.
  apply (allowed_only_by_matching_allow_ace (ACLAuthorizer.mk open_root) view
           [george; Everyone]).
  reflexivity.
Defined.

(** X5. A [Denied] that the authorizer returns is of one of two kinds:
    its ACE is [None] and every ACE of the ACL was passed over, or its ACE
    is the first matching ACE of the ACL and the action of that ACE is not
    [Allow], whatever else it is. *)
Theorem denied_is_implicit_or_by_first_match :
  forall (self : ACLAuthorizer.t) (permission : value) (principals : list value)
         (r : PermitsResult.t),
    ACLAuthorizer.permits self permission principals = Ok (Denied r) ->
    exists acl flat aces,
      node_acl (ACLAuthorizer.context self) = Some acl
      /\ flatten (VTuple principals) = Ok flat
      /\ py_iter acl = Ok aces
      /\ ((PermitsResult.ace r = VNone
           /\ forallb (ace_passed_over permission flat) aces = true)
          \/ (exists earlier ace later action ace_principal ace_permissions,
                aces = earlier ++ ace :: later
                /\ forallb (ace_passed_over permission flat) earlier = true
                /\ unpack3 ace = Ok (action, ace_principal, ace_permissions)
                /\ ace_matches permission flat ace = true
                /\ py_eq action Allow = false
                /\ PermitsResult.ace r = ace
                /\ ace <> VNone)).
Proof.
  intros self permission principals r H.
  destruct (permits_ok_inv _ _ _ _ H) as (acl & aces & flat & Hacl & _ & Hit & Hf & Hd).
  exists acl, flat, aces. repeat split; try done.
  destruct (ace_loop_ok_inv _ _ _ _ _ _ _ Hf Hd)
    as [[Hall Heq]|(earlier & ace & later & a & p & ps & -> & He & Hu & Hm & Heq)].
  - left. inversion Heq. done.
  - right. exists earlier, ace, later, a, p, ps.
    unfold decision_of in Heq. destruct (py_eq a Allow) eqn:Ha; [discriminate Heq|].
    inversion Heq. repeat split; try done. by eapply unpack3_not_None.
Qed.

Lemma denied_is_implicit_or_by_first_match_witness :
  exists acl flat aces,
    node_acl (Node (Some (VList [lowercase_allow_view])) "<document>" None) = Some acl
    /\ flatten (VTuple [Everyone]) = Ok flat
    /\ py_iter acl = Ok aces
    /\ ((PermitsResult.ace
           (PermitsResult_init lowercase_allow_view (VList [lowercase_allow_view])
              view (VTuple [Everyone])
              (Node (Some (VList [lowercase_allow_view])) "<document>" None)) = VNone
         /\ forallb (ace_passed_over view flat) aces = true)
        \/ (exists earlier ace later action ace_principal ace_permissions,
              aces = earlier ++ ace :: later
              /\ forallb (ace_passed_over view flat) earlier = true
              /\ unpack3 ace = Ok (action, ace_principal, ace_permissions)
              /\ ace_matches view flat ace = true
              /\ py_eq action Allow = false
              /\ PermitsResult.ace
                   (PermitsResult_init lowercase_allow_view
                      (VList [lowercase_allow_view]) view (VTuple [Everyone])
                      (Node (Some (VList [lowercase_allow_view])) "<document>" None))
                 = ace
              /\ ace <> VNone)).
Proof.
  apply (denied_is_implicit_or_by_first_match
           (ACLAuthorizer.mk (Node (Some (VList [lowercase_allow_view]))
                                "<document>" None))
           view [Everyone]).
  reflexivity.
Defined.

(** X6. The outcome of the authorizer does not depend on how the caller
    arranged its principals: two calls whose principals flatten to lists
    with the same members (in any order, nesting or multiplicity) give
    decisions with the same truth value and the same deciding ACE, or
    raise the same exception. *)
Theorem principal_arrangement_is_irrelevant :
  forall (self : ACLAuthorizer.t) (permission : value)
         (principals1 principals2 flat1 flat2 : list value),
    flatten (VTuple principals1) = Ok flat1 ->
    flatten (VTuple principals2) = Ok flat2 ->
    (forall x, In x flat1 <-> In x flat2) ->
    res_map verdict (ACLAuthorizer.permits self permission principals1)
    = res_map verdict (ACLAuthorizer.permits self permission principals2).
Proof.
  intros self permission principals1 principals2 flat1 flat2 Hf1 Hf2 Hsame.
  unfold ACLAuthorizer.permits.
  destruct (is_None (ACLAuthorizer.get_acl self VNone)); [done|].
  destruct (py_iter (ACLAuthorizer.get_acl self VNone)) as [aces|e]; [|done].
  cbn [bind]. by apply (ace_loop_verdict_ext _ _ _ _ _ flat1 flat2).
Qed.

Lemma principal_arrangement_is_irrelevant_witness :
  res_map verdict
    (ACLAuthorizer.permits
       (ACLAuthorizer.mk (Node (Some george_then_deny) "<document>" None))
       view [Everyone; george])
  = res_map verdict
      (ACLAuthorizer.permits
         (ACLAuthorizer.mk (Node (Some george_then_deny) "<document>" None))
         view [VList [george; VTuple [george; Everyone]]]).
Proof.
  apply (principal_arrangement_is_irrelevant
           (ACLAuthorizer.mk (Node (Some george_then_deny) "<document>" None))
           view [Everyone; george] [VList [george; VTuple [george; Everyone]]]
           [Everyone; george] [george; george; Everyone]).
  - reflexivity.
  - reflexivity.
  - intros x. simpl. tauto.
Defined.

Lemma location_loop_raised pol permission principals location rest e :
  ACLAuthorizer.permits (ACLAuthorizer.mk location) permission principals = Raise e ->
  e <> NoAuthorizationInformation ->
  ACLSecurityPolicy.location_loop pol permission principals (location :: rest)
  = Raise e.
Proof.
  intros H Hne. simpl. unfold ACLSecurityPolicy.authorizer_factory. rewrite H.
  by destruct e.
Qed.

(** X7. An ACE that is reached and cannot be evaluated makes the
    authorizer raise instead of deciding: an entry that is not a sequence
    of three elements, or an ACE whose principal matches and whose
    permission field cannot be flattened.  The exception is [TypeError] or
    [ValueError], and the policy lets it through: it neither denies nor
    goes on to the parent, whatever ACEs and ancestors follow. *)
Theorem unreadable_ace_raises_through_the_policy :
  forall (pol : ACLSecurityPolicy.t) (r : request) (acl : value) (repr : string)
         (parent : option node) (permission : value)
         (principals flat earlier later : list value) (ace : value) (e : exc),
    py_iter acl = Ok (earlier ++ ace :: later) ->
    ACLSecurityPolicy.effective_principals pol r = Ok principals ->
    flatten (VTuple principals) = Ok flat ->
    forallb (ace_passed_over permission flat) earlier = true ->
    ace_raises flat ace = Some e ->
    let context := Node (Some acl) repr parent in
    ACLAuthorizer.permits (ACLAuthorizer.mk context) permission principals = Raise e
    /\ (e = TypeError \/ e = ValueError)
    /\ ACLSecurityPolicy.permits pol context r permission = Raise e.
Proof.
  intros pol r acl repr parent permission principals flat earlier later ace e
    Hit Hp Hf Hearlier Hr context.
  assert (Hraise : ACLAuthorizer.permits (ACLAuthorizer.mk context) permission
                     principals = Raise e).
  { rewrite (permits_with_acl (ACLAuthorizer.mk context) acl _ _ _ eq_refl Hit).
    by apply (ace_loop_raises _ _ _ _ flat). }
  assert (He : e = TypeError \/ e = ValueError).
  { destruct (permits_raises_inv _ _ _ _ Hraise) as [[-> Hnone]|[He _]]; [|done].
    unfold ACLAuthorizer.get_acl in Hnone. simpl in Hnone. subst acl.
    discriminate Hit. }
  repeat split; try done.
  rewrite (policy_permits_unfold _ _ _ _ _ Hp).
  destruct (LocationIterator_head context) as [rest ->].
  apply location_loop_raised; [done|]. by destruct He as [-> | ->].
Qed.

Lemma unreadable_ace_raises_through_the_policy_witness :
  ACLAuthorizer.permits (ACLAuthorizer.mk broken_document) view [Everyone]
  = Raise TypeError
  /\ (TypeError = TypeError \/ TypeError = ValueError)
  /\ ACLSecurityPolicy.permits RemoteUserACLSecurityPolicy broken_document
       anonymous_request view = Raise TypeError.
Proof.
  refine (unreadable_ace_raises_through_the_policy RemoteUserACLSecurityPolicy
            anonymous_request
            (VList [allow_george_view; everyone_number; allow_everyone_view])
            "<document>" (Some open_root) view [Everyone] [Everyone]
            [allow_george_view] [allow_everyone_view] everyone_number TypeError
            _ _ _ _ _);
    vm_compute; reflexivity.
Defined.

(** X8. The authorizer raises [NoAuthorizationInformation] exactly when
    the node has no [__acl__] or its [__acl__] is [None]; whatever else
    it raises is [TypeError] or [ValueError], and it never returns a
    decision for such a node. *)
Theorem no_authorization_information_iff_no_acl :
  forall (self : ACLAuthorizer.t) (permission : value) (principals : list value),
    (ACLAuthorizer.permits self permission principals = Raise NoAuthorizationInformation
     <-> (node_acl (ACLAuthorizer.context self) = None
          \/ node_acl (ACLAuthorizer.context self) = Some VNone))
    /\ (forall e, ACLAuthorizer.permits self permission principals = Raise e ->
          e = NoAuthorizationInformation \/ e = TypeError \/ e = ValueError).
Proof.
  intros self permission principals. split; [split|].
  - intros H. apply get_acl_None_iff.
    destruct (permits_raises_inv _ _ _ _ H) as [[_ Hn]|[[He|He] _]];
      [done| discriminate He | discriminate He].
  - intros H. apply permits_without_acl. by apply get_acl_None_iff.
  - intros e H.
    destruct (permits_raises_inv _ _ _ _ H) as [[-> _]|[[->| ->] _]]; auto.
Qed.

Lemma no_authorization_information_iff_no_acl_witness :
  NoAuthorizationInformation = NoAuthorizationInformation
  \/ NoAuthorizationInformation = TypeError
  \/ NoAuthorizationInformation = ValueError.
Proof.
  apply (proj2 (no_authorization_information_iff_no_acl
                  (ACLAuthorizer.mk null_acl_document) view [Everyone])).
  reflexivity.
Defined.

(** ** More facts about the policy *)

Lemma effective_principals_inv pol r ps :
  ACLSecurityPolicy.effective_principals pol r = Ok ps ->
  exists v,
    ACLSecurityPolicy.get_principals pol r = Ok v
    /\ ((py_bool v = false /\ ps = [Everyone])
        \/ (py_bool v = true
            /\ exists first rest,
                 py_iter v = Ok (first :: rest)
                 /\ ps = Everyone :: Authenticated :: first :: rest)).
Proof.
  unfold ACLSecurityPolicy.effective_principals.
  destruct (ACLSecurityPolicy.get_principals pol r) as [v|e]; [|discriminate].
  cbn [bind]. intros H. exists v. split; [done|].
  destruct (py_bool v) eqn:Hb.
  - right. split; [done|].
    destruct (py_iter v) as [[|first rest]|e] eqn:Hit; try discriminate H.
    + destruct v as [| | |[|? ?]|[|? ?]|[|? ?]|[|? ?]]; discriminate.
    + exists first, rest. inversion H. done.
  - left. inversion H. done.
Qed.

Lemma flatten_tuple_cons_atom x l :
  atomic x = true ->
  flatten (VTuple (x :: l)) = (r <- flatten (VTuple l) ;; Ok (x :: r)).
Proof.
  intros Hx. rewrite !flatten_VTuple, flatten_loop_cons.
  unfold atomic in Hx. apply negb_true_iff in Hx. rewrite Hx.
  by rewrite (flatten_loop_acc flatten ([] ++ [x]) l).
Qed.

Lemma nearest_acl_Some locations n :
  nearest_acl locations = Some n ->
  In n locations
  /\ is_None (ACLAuthorizer.get_acl (ACLAuthorizer.mk n) VNone) = false.
Proof.
  induction locations as [|location rest IH]; [discriminate|].
  cbn [nearest_acl].
  destruct (is_None (ACLAuthorizer.get_acl (ACLAuthorizer.mk location) VNone)) eqn:Hn.
  - intros H. destruct (IH H). split; [by right | done].
  - intros H. inversion H; subst. split; [by left | done].
Qed.

Lemma is_None_true v : is_None v = true -> v = VNone.
Proof. by destruct v. Qed.

Lemma location_loop_nearest pol permission principals locations :
  ACLSecurityPolicy.location_loop pol permission principals locations =
  match nearest_acl locations with
  | None => Ok (Builtin (VBool false))
  | Some n =>
      d <- ACLAuthorizer.permits (ACLAuthorizer.mk n) permission principals ;;
      Ok (Instance d)
  end.
Proof.
  induction locations as [|location rest IH]; [done|].
  cbn [nearest_acl].
  destruct (is_None (ACLAuthorizer.get_acl (ACLAuthorizer.mk location) VNone)) eqn:Hn.
  - rewrite location_loop_deferred; [done|].
    apply permits_without_acl. by apply is_None_true.
  - destruct (ACLAuthorizer.permits (ACLAuthorizer.mk location) permission principals)
      as [d|e] eqn:Hp.
    + by apply location_loop_decided.
    + apply location_loop_raised; [done|].
      destruct (permits_raises_inv _ _ _ _ Hp) as [[_ Hnone]|[[->| ->] _]];
        [|done|done].
      rewrite Hnone in Hn. discriminate Hn.
Qed.

(** X9. Whatever the resolver returns, the effective principals begin
    with [Everyone]; they are [[Everyone]] alone when the resolver's
    value is false, and otherwise [Everyone], [Authenticated] and then the
    elements of the resolver's value, of which there is at least one: so
    [Authenticated] is never the last. *)
Theorem effective_principals_begin_with_everyone :
  forall (pol : ACLSecurityPolicy.t) (r : request) (ps : list value),
    ACLSecurityPolicy.effective_principals pol r = Ok ps ->
    exists v,
      ACLSecurityPolicy.get_principals pol r = Ok v
      /\ hd_error ps = Some Everyone
      /\ ((py_bool v = false /\ ps = [Everyone])
          \/ (py_bool v = true
              /\ exists first rest,
                   py_iter v = Ok (first :: rest)
                   /\ ps = Everyone :: Authenticated :: first :: rest)).
Proof.
  intros pol r ps H. destruct (effective_principals_inv _ _ _ H) as (v & Hv & Hc).
  exists v. repeat split; try done.
  destruct Hc as [[_ ->]|[_ (first & rest & _ & ->)]]; done.
Qed.

Lemma effective_principals_begin_with_everyone_witness :
  exists v,
    ACLSecurityPolicy.get_principals RepozeWhoIdentityACLSecurityPolicy
      who_request_string_groups = Ok v
    /\ hd_error [Everyone; Authenticated; george; VStr "a"; VStr "b"] = Some Everyone
    /\ ((py_bool v = false
         /\ [Everyone; Authenticated; george; VStr "a"; VStr "b"] = [Everyone])
        \/ (py_bool v = true
            /\ exists first rest,
                 py_iter v = Ok (first :: rest)
                 /\ [Everyone; Authenticated; george; VStr "a"; VStr "b"]
                    = Everyone :: Authenticated :: first :: rest)).
Proof.
  apply (effective_principals_begin_with_everyone
           RepozeWhoIdentityACLSecurityPolicy who_request_string_groups).
  vm_compute. reflexivity.
Defined.

(** X10. The policy answers from the nearest node of the ancestor chain
    whose [__acl__] is there and is not [None]: it returns the plain
    [False] when there is no such node, and otherwise what the authorizer
    of that node returns or raises; asking for the node gives what asking
    for that ancestor gives. *)
Theorem nearest_acl_decides :
  forall (pol : ACLSecurityPolicy.t) (r : request) (context : node)
         (permission : value),
    ACLSecurityPolicy.permits pol context r permission
    = (principals <- ACLSecurityPolicy.effective_principals pol r ;;
       match nearest_acl (LocationIterator context) with
       | None => Ok (Builtin (VBool false))
       | Some n =>
           d <- ACLAuthorizer.permits (ACLAuthorizer.mk n) permission principals ;;
           Ok (Instance d)
       end)
    /\ (forall n, nearest_acl (LocationIterator context) = Some n ->
          ACLSecurityPolicy.permits pol context r permission
          = ACLSecurityPolicy.permits pol n r permission).
Proof.
  intros pol r context permission.
  assert (Hfirst : forall c,
    ACLSecurityPolicy.permits pol c r permission
    = (principals <- ACLSecurityPolicy.effective_principals pol r ;;
       match nearest_acl (LocationIterator c) with
       | None => Ok (Builtin (VBool false))
       | Some n =>
           d <- ACLAuthorizer.permits (ACLAuthorizer.mk n) permission principals ;;
           Ok (Instance d)
       end)).
  { intros c. unfold ACLSecurityPolicy.permits.
    destruct (ACLSecurityPolicy.effective_principals pol r) as [ps|e]; [|done].
    cbn [bind]. apply location_loop_nearest. }
  split; [apply Hfirst|].
  intros n Hn. rewrite (Hfirst context), (Hfirst n), Hn.
  destruct (nearest_acl_Some _ _ Hn) as [_ Hacl].
  destruct (LocationIterator_head n) as [rest ->].
  cbn [nearest_acl]. by rewrite Hacl.
Qed.

Lemma nearest_acl_decides_witness :
  ACLSecurityPolicy.permits RemoteUserACLSecurityPolicy inheriting_document
    george_request view
  = ACLSecurityPolicy.permits RemoteUserACLSecurityPolicy closed_folder
      george_request view.
Proof.
  apply (proj2 (nearest_acl_decides RemoteUserACLSecurityPolicy george_request
                  inheriting_document view)).
  reflexivity.
Defined.

(** X11. What the policy returns is the plain [False] or a decision of
    the authorizer of the nearest node with an ACL, never [True] or
    [None]; a result that is true is an [Allowed] returned by that
    authorizer for the effective principals. *)
Theorem policy_result_is_false_or_decision :
  forall (pol : ACLSecurityPolicy.t) (r : request) (context : node)
         (permission : value) (o : pyobj),
    ACLSecurityPolicy.permits pol context r permission = Ok o ->
    exists principals,
      ACLSecurityPolicy.effective_principals pol r = Ok principals
      /\ ((nearest_acl (LocationIterator context) = None
           /\ o = Builtin (VBool false))
          \/ (exists n d,
                nearest_acl (LocationIterator context) = Some n
                /\ In n (LocationIterator context)
                /\ ACLAuthorizer.permits (ACLAuthorizer.mk n) permission principals
                   = Ok d
                /\ o = Instance d
                /\ (obj_bool o = true -> exists rec, d = Allowed rec))).
Proof.
  intros pol r context permission o H.
  unfold ACLSecurityPolicy.permits in H.
  destruct (ACLSecurityPolicy.effective_principals pol r) as [ps|e]; [|discriminate H].
  cbn [bind] in H. rewrite location_loop_nearest in H.
  exists ps. split; [done|].
  destruct (nearest_acl (LocationIterator context)) as [n|] eqn:Hn.
  - right.
    destruct (ACLAuthorizer.permits (ACLAuthorizer.mk n) permission ps) as [d|e] eqn:Hd;
      [|discriminate H].
    exists n, d. destruct (nearest_acl_Some _ _ Hn) as [Hin _].
    inversion H. repeat split; try done.
    destruct d as [rec|rec]; [discriminate|by exists rec].
  - left. inversion H. done.
Qed.

Lemma policy_result_is_false_or_decision_witness :
  exists principals,
    ACLSecurityPolicy.effective_principals RemoteUserACLSecurityPolicy
      anonymous_request = Ok principals
    /\ ((nearest_acl (LocationIterator bare_document) = None
         /\ Builtin (VBool false) = Builtin (VBool false))
        \/ (exists n d,
              nearest_acl (LocationIterator bare_document) = Some n
              /\ In n (LocationIterator bare_document)
              /\ ACLAuthorizer.permits (ACLAuthorizer.mk n) view principals = Ok d
              /\ Builtin (VBool false) = Instance d
              /\ (obj_bool (Builtin (VBool false)) = true ->
                  exists rec, d = Allowed rec))).
Proof.
  apply (policy_result_is_false_or_decision RemoteUserACLSecurityPolicy
           anonymous_request bare_document view).
  vm_compute. reflexivity.
Defined.

Lemma flatten_effective_principals pol r ps :
  ACLSecurityPolicy.effective_principals pol r = Ok ps ->
  (ps = [Everyone] /\ flatten (VTuple ps) = Ok [Everyone])
  \/ (exists first rest flat,
        ps = Everyone :: Authenticated :: first :: rest
        /\ flatten (VTuple ps) = Ok (Everyone :: Authenticated :: flat)).
Proof.
  intros H. destruct (effective_principals_inv _ _ _ H) as (v & _ & Hc).
  destruct Hc as [[_ ->]|[_ (first & rest & _ & ->)]].
  - left. done.
  - right. destruct (flatten_principals_total (first :: rest)) as (flat & Hflat & _).
    exists first, rest, flat. split; [done|].
    rewrite (flatten_tuple_cons_atom Everyone) by done.
    rewrite (flatten_tuple_cons_atom Authenticated) by done.
    by rewrite Hflat.
Qed.

Lemma policy_permits_at_node pol r acl repr parent permission principals res0 :
  ACLSecurityPolicy.effective_principals pol r = Ok principals ->
  ACLAuthorizer.permits (ACLAuthorizer.mk (Node (Some acl) repr parent)) permission
    principals = Ok res0 ->
  ACLSecurityPolicy.permits pol (Node (Some acl) repr parent) r permission
  = Ok (Instance res0).
Proof.
  intros Hp Hd. rewrite (policy_permits_unfold _ _ _ _ _ Hp).
  destruct (LocationIterator_head (Node (Some acl) repr parent)) as [rest ->].
  by apply location_loop_decided.
Qed.

(** X12. An ACE for [Everyone] at the head of the ACL of a node decides
    every request for a permission it lists, whoever the request is
    from: with action [Allow] the policy returns [Allowed], with action
    [Deny] it returns [Denied], both with that ACE, because the effective
    principals always hold [Everyone]. *)
Theorem everyone_ace_decides_every_request :
  forall (pol : ACLSecurityPolicy.t) (r : request) (ps : list value)
         (repr : string) (parent : option node) (action permission perms : value)
         (later : list value),
    ACLSecurityPolicy.effective_principals pol r = Ok ps ->
    permission_listed permission perms = true ->
    let ace := VTuple [action; Everyone; perms] in
    let acl := VList (ace :: later) in
    let context := Node (Some acl) repr parent in
    let record := PermitsResult_init ace acl permission (VTuple ps) context in
    (action = Allow ->
     ACLSecurityPolicy.permits pol context r permission = Ok (Instance (Allowed record)))
    /\ (action = Deny ->
        ACLSecurityPolicy.permits pol context r permission
        = Ok (Instance (Denied record))).
Proof.
  intros pol r ps repr parent action permission perms later Hp Hl ace acl context
    record.
  assert (Hflat : exists flat, flatten (VTuple ps) = Ok (Everyone :: flat)).
  { destruct (flatten_effective_principals _ _ _ Hp)
      as [[_ H]|(first & rest & flat & _ & H)]; eauto. }
  destruct Hflat as (flat & Hflat).
  assert (Hd : ACLAuthorizer.permits (ACLAuthorizer.mk context) permission ps
               = Ok (decision_of action ace acl permission (VTuple ps) context)).
  { rewrite (permits_with_acl (ACLAuthorizer.mk context) acl _ _ (ace :: later)
               eq_refl eq_refl).
    rewrite (ace_loop_match (ACLAuthorizer.mk context) acl permission (VTuple ps)
               (Everyone :: flat) ace later action Everyone perms Hflat eq_refl);
      [done|].
    unfold ace_matches. cbn [ace unpack3 py_iter bind].
    by rewrite Hl. }
  split; intros ->;
    (apply (policy_permits_at_node _ _ _ _ _ _ ps); [done | exact Hd]).
Qed.

Lemma everyone_ace_decides_every_request_witness :
  ACLSecurityPolicy.permits RepozeWhoIdentityACLSecurityPolicy closed_folder
    who_request view
  = Ok (Instance (Denied (PermitsResult_init deny_everyone_view
                            (VList [deny_everyone_view]) view
                            (VTuple [Everyone; Authenticated; george;
                                     VStr "admins"; VStr "staff"])
                            closed_folder))).
Proof.
  refine (proj2 (everyone_ace_decides_every_request
                   RepozeWhoIdentityACLSecurityPolicy who_request
                   [Everyone; Authenticated; george; VStr "admins"; VStr "staff"]
                   "<folder>" (Some open_root) Deny view view [] _ _) eq_refl);
    vm_compute; reflexivity.
Defined.

(** X13. An ACL that holds only an [Allow] ACE for [Authenticated] tells
    the requests apart by the resolver alone: a request for which the
    effective principals are [[Everyone]] gets the implicit deny, and any
    other request, one with at least one resolved principal, is allowed
    by that ACE. *)
Theorem authenticated_ace_allows_resolved_requests_only :
  forall (pol : ACLSecurityPolicy.t) (r : request) (ps : list value)
         (repr : string) (parent : option node) (permission perms : value),
    ACLSecurityPolicy.effective_principals pol r = Ok ps ->
    permission_listed permission perms = true ->
    let ace := VTuple [Allow; Authenticated; perms] in
    let acl := VList [ace] in
    let context := Node (Some acl) repr parent in
    (ps = [Everyone]
     /\ ACLSecurityPolicy.permits pol context r permission
        = Ok (Instance (implicit_deny acl permission (VTuple ps) context)))
    \/ (exists first rest,
          ps = Everyone :: Authenticated :: first :: rest
          /\ ACLSecurityPolicy.permits pol context r permission
             = Ok (Instance (Allowed (PermitsResult_init ace acl permission
                                        (VTuple ps) context)))).
Proof.
  intros pol r ps repr parent permission perms Hp Hl ace acl context.
  destruct (flatten_effective_principals _ _ _ Hp)
    as [[Hps Hflat]|(first & rest & flat & Hps & Hflat)].
  - left. split; [done|]. apply (policy_permits_at_node _ _ _ _ _ _ ps); [done|].
    rewrite (permits_with_acl (ACLAuthorizer.mk context) acl _ _ [ace]
               eq_refl eq_refl).
    by rewrite (ace_loop_passed_over _ _ _ _ _ _ _ Hflat).
  - right. exists first, rest. split; [done|].
    apply (policy_permits_at_node _ _ _ _ _ _ ps); [done|].
    rewrite (permits_with_acl (ACLAuthorizer.mk context) acl _ _ [ace]
               eq_refl eq_refl).
    rewrite (ace_loop_match (ACLAuthorizer.mk context) acl permission (VTuple ps)
               _ ace [] Allow Authenticated perms Hflat eq_refl);
      [done|].
    unfold ace_matches. cbn [ace unpack3 py_iter bind]. by rewrite Hl.
Qed.

Lemma authenticated_ace_allows_resolved_requests_only_witness :
  let acl := VList [allow_authenticated_view] in
  let context := Node (Some acl) "<document>" None in
  ([Everyone] = [Everyone]
   /\ ACLSecurityPolicy.permits RemoteUserACLSecurityPolicy context
        anonymous_request view
      = Ok (Instance (implicit_deny acl view (VTuple [Everyone]) context)))
  \/ (exists first rest,
        [Everyone] = Everyone :: Authenticated :: first :: rest
        /\ ACLSecurityPolicy.permits RemoteUserACLSecurityPolicy context
             anonymous_request view
           = Ok (Instance (Allowed (PermitsResult_init allow_authenticated_view acl
                                      view (VTuple [Everyone]) context)))).
Proof.
  apply (authenticated_ace_allows_resolved_requests_only
           RemoteUserACLSecurityPolicy anonymous_request [Everyone]
           "<document>" None view view);
    vm_compute; reflexivity.
Defined.

(** ** The resolvers and the other queries *)

(** X14. With the remote-user resolver nothing raises while the
    principals are resolved: when [REMOTE_USER] is there and true, it is
    the only raw principal, the effective principals are [Everyone],
    [Authenticated] and it, and it is the authenticated user id; when it
    is missing or false there is no raw principal, the effective
    principals are [[Everyone]] and the authenticated user id is [None]. *)
Theorem remote_user_resolution_is_total :
  forall (r : request),
    (exists u,
       environ r !! "REMOTE_USER" = Some u
       /\ py_bool u = true
       /\ get_remoteuser r = Ok (VList [u])
       /\ ACLSecurityPolicy.effective_principals RemoteUserACLSecurityPolicy r
          = Ok [Everyone; Authenticated; u]
       /\ ACLSecurityPolicy_authenticated_userid RemoteUserACLSecurityPolicy r = Ok u)
    \/ (py_bool (environ_get r "REMOTE_USER") = false
        /\ get_remoteuser r = Ok (VList [])
        /\ ACLSecurityPolicy.effective_principals RemoteUserACLSecurityPolicy r
           = Ok [Everyone]
        /\ ACLSecurityPolicy_authenticated_userid RemoteUserACLSecurityPolicy r
           = Ok VNone).
Proof.
  intros r.
  unfold ACLSecurityPolicy_authenticated_userid,
    ACLSecurityPolicy.effective_principals, RemoteUserACLSecurityPolicy.
  cbn [ACLSecurityPolicy.get_principals]. unfold get_remoteuser.
  destruct (py_bool (environ_get r "REMOTE_USER")) eqn:Hb.
  - left. unfold environ_get in *.
    destruct (environ r !! "REMOTE_USER") as [u|]; [|discriminate Hb].
    exists u. done.
  - right. done.
Qed.

Lemma resolver_error_propagates pol r e :
  ACLSecurityPolicy.get_principals pol r = Raise e ->
  ACLSecurityPolicy.effective_principals pol r = Raise e
  /\ ACLSecurityPolicy_authenticated_userid pol r = Raise e
  /\ forall context permission,
       ACLSecurityPolicy.permits pol context r permission = Raise e.
Proof.
  intros H.
  assert (He : ACLSecurityPolicy.effective_principals pol r = Raise e).
  { unfold ACLSecurityPolicy.effective_principals. by rewrite H. }
  repeat split.
  - done.
  - unfold ACLSecurityPolicy_authenticated_userid. by rewrite H.
  - intros context permission. unfold ACLSecurityPolicy.permits. by rewrite He.
Qed.

(** X15. An exception of the resolver is the exception of the policy:
    when the resolver raises, [effective_principals], [authenticated_userid]
    and [permits] raise the same, for every node, with or without ACL, and
    also when the exception is [NoAuthorizationInformation], which
    [permits] catches only around the authorizer. *)
Theorem resolver_exception_is_not_caught :
  forall (pol : ACLSecurityPolicy.t) (r : request) (e : exc),
    ACLSecurityPolicy.get_principals pol r = Raise e ->
    ACLSecurityPolicy.effective_principals pol r = Raise e
    /\ ACLSecurityPolicy_authenticated_userid pol r = Raise e
    /\ forall context permission,
         ACLSecurityPolicy.permits pol context r permission = Raise e.
Proof. exact resolver_error_propagates. Qed.

Lemma resolver_exception_is_not_caught_witness :
  ACLSecurityPolicy.effective_principals
    (ACLSecurityPolicy.mk (fun _ => Raise NoAuthorizationInformation))
    anonymous_request = Raise NoAuthorizationInformation
  /\ ACLSecurityPolicy_authenticated_userid
       (ACLSecurityPolicy.mk (fun _ => Raise NoAuthorizationInformation))
       anonymous_request = Raise NoAuthorizationInformation
  /\ forall context permission,
       ACLSecurityPolicy.permits
         (ACLSecurityPolicy.mk (fun _ => Raise NoAuthorizationInformation))
         context anonymous_request permission = Raise NoAuthorizationInformation.
Proof.
  apply (resolver_exception_is_not_caught
           (ACLSecurityPolicy.mk (fun _ => Raise NoAuthorizationInformation))
           anonymous_request NoAuthorizationInformation).
  reflexivity.
Defined.

(** X16. What the identity resolver does with an identity that is not as
    expected: an empty dict counts as no identity (the empty list); a dict
    with entries but without the user id raises [KeyError], which is then
    what [permits] raises on every node; a true object that is not a dict
    raises [TypeError]. *)
Theorem identity_resolver_edge_cases :
  forall (r : request) (identity : value),
    environ r !! "repoze.who.identity" = Some identity ->
    (identity = VDict [] -> get_who_principals r = Ok (VList []))
    /\ (forall items,
          identity = VDict items -> items <> [] ->
          dict_get items "repoze.who.userid" = None ->
          get_who_principals r = Raise KeyError
          /\ forall context permission,
               ACLSecurityPolicy.permits RepozeWhoIdentityACLSecurityPolicy
                 context r permission = Raise KeyError)
    /\ (py_bool identity = true -> (forall items, identity <> VDict items) ->
        get_who_principals r = Raise TypeError).
Proof.
  intros r identity Hid.
  assert (Hkey : forall items,
    identity = VDict items -> items <> [] ->
    dict_get items "repoze.who.userid" = None ->
    get_who_principals r = Raise KeyError).
  { intros items -> Hne Hu. unfold get_who_principals, environ_get. rewrite Hid.
    destruct items as [|kv items]; [done|].
    cbn [py_bool length Nat.eqb negb getitem]. by rewrite Hu. }
  split; [|split].
  - intros ->. unfold get_who_principals, environ_get. by rewrite Hid.
  - intros items Hitems Hne Hu. split; [by apply (Hkey items)|].
    intros context permission.
    apply (resolver_error_propagates RepozeWhoIdentityACLSecurityPolicy r KeyError).
    by apply (Hkey items).
  - intros Hb Hnd. unfold get_who_principals, environ_get. rewrite Hid, Hb.
    cbn [negb]. destruct identity; try done. by destruct (Hnd items).
Qed.

Lemma identity_resolver_edge_cases_witness :
  get_who_principals who_request_no_userid = Raise KeyError
  /\ forall context permission,
       ACLSecurityPolicy.permits RepozeWhoIdentityACLSecurityPolicy
         context who_request_no_userid permission = Raise KeyError.
Proof.
  refine (proj1 (proj2 (identity_resolver_edge_cases who_request_no_userid
                          (VDict [("groups", VList [VStr "admins"])]) _))
            [("groups", VList [VStr "admins"])] eq_refl _ _).
  - vm_compute. reflexivity.
  - discriminate.
  - reflexivity.
Defined.

(** X17. The identity resolver appends what iterating the [groups] entry
    yields: the elements of a list or tuple, but the single characters of a
    string, and it raises [TypeError] for an entry that cannot be
    iterated, such as [None] or a number. *)
Theorem identity_groups_are_iterated :
  forall (r : request) (items : list (string * value)) (userid groups : value),
    environ r !! "repoze.who.identity" = Some (VDict items) ->
    dict_get items "repoze.who.userid" = Some userid ->
    dict_get items "groups" = Some groups ->
    (forall els, py_iter groups = Ok els ->
       get_who_principals r = Ok (VList (userid :: els)))
    /\ (forall s, groups = VStr s ->
          get_who_principals r = Ok (VList (userid :: chars s)))
    /\ (forall els, groups = VTuple els ->
          get_who_principals r = Ok (VList (userid :: els)))
    /\ (hasattr_iter groups = false -> isinstance_basestring groups = false ->
        get_who_principals r = Raise TypeError).
Proof.
  intros r items userid groups Hid Hu Hg.
  assert (Heq : get_who_principals r
                = (extension <- py_iter groups ;; Ok (VList (userid :: extension)))).
  { unfold get_who_principals, environ_get. rewrite Hid.
    destruct items as [|kv items]; [discriminate Hu|].
    cbn [py_bool length Nat.eqb negb getitem get_method]. by rewrite Hu, Hg. }
  rewrite Heq. repeat split.
  - by intros els ->.
  - by intros s ->.
  - by intros els ->.
  - intros Hit Hstr. by destruct groups.
Qed.

Lemma identity_groups_are_iterated_witness :
  get_who_principals who_request_string_groups
  = Ok (VList [george; VStr "a"; VStr "b"]).
Proof.
  refine (proj1 (proj2 (identity_groups_are_iterated who_request_string_groups
                          [("repoze.who.userid", george); ("groups", VStr "ab")]
                          george (VStr "ab") _ _ _)) "ab" eq_refl);
    vm_compute; reflexivity.
Defined.

(** X18. Whenever [authenticated_userid] and [effective_principals] both
    return, they agree: either the user id is [None] and the effective
    principals are [[Everyone]], or the user id is the principal that
    follows [Everyone] and [Authenticated].  For a resolver value that is
    a dict with entries the effective principals hold its keys, while
    [authenticated_userid] raises [KeyError]. *)
Theorem authenticated_userid_is_third_effective_principal :
  forall (pol : ACLSecurityPolicy.t) (r : request),
    (forall ps u,
       ACLSecurityPolicy.effective_principals pol r = Ok ps ->
       ACLSecurityPolicy_authenticated_userid pol r = Ok u ->
       (u = VNone /\ ps = [Everyone])
       \/ (exists rest, ps = Everyone :: Authenticated :: u :: rest))
    /\ (forall kv items,
          ACLSecurityPolicy.get_principals pol r = Ok (VDict (kv :: items)) ->
          ACLSecurityPolicy_authenticated_userid pol r = Raise KeyError
          /\ ACLSecurityPolicy.effective_principals pol r
             = Ok (Everyone :: Authenticated
                   :: map (fun kv => VStr (fst kv)) (kv :: items))).
Proof.
  intros pol r. split.
  - intros ps u Hp Hu.
    destruct (effective_principals_inv _ _ _ Hp) as (v & Hv & Hc).
    unfold ACLSecurityPolicy_authenticated_userid in Hu. rewrite Hv in Hu.
    cbn [bind] in Hu.
    destruct Hc as [[Hb ->]|[Hb (first & rest & Hit & ->)]]; rewrite Hb in Hu.
    + left. inversion Hu. done.
    + right. exists rest.
      destruct v as [| | |[|c s]|[|x l]|[|x l]|[|kv l]];
        simpl in Hit, Hu; try discriminate; inversion Hit; inversion Hu; by subst.
  - intros kv items Hv.
    unfold ACLSecurityPolicy_authenticated_userid,
      ACLSecurityPolicy.effective_principals.
    by rewrite Hv.
Qed.

Lemma authenticated_userid_is_third_effective_principal_witness :
  (george = VNone /\ [Everyone; Authenticated; george; VStr "admins"; VStr "staff"]
                     = [Everyone])
  \/ (exists rest,
        [Everyone; Authenticated; george; VStr "admins"; VStr "staff"]
        = Everyone :: Authenticated :: george :: rest).
Proof.
  apply (proj1 (authenticated_userid_is_third_effective_principal
                  RepozeWhoIdentityACLSecurityPolicy who_request));
    vm_compute; reflexivity.
Defined.

Lemma policy_permits_not_True pol context r permission :
  ACLSecurityPolicy.permits pol context r permission <> Ok (Builtin (VBool true)).
Proof.
  unfold ACLSecurityPolicy.permits.
  destruct (ACLSecurityPolicy.effective_principals pol r) as [ps|e]; [|done].
  cbn [bind]. rewrite location_loop_nearest.
  destruct (nearest_acl (LocationIterator context)) as [n|]; [|done].
  by destruct (ACLAuthorizer.permits (ACLAuthorizer.mk n) permission ps).
Qed.

(** X19. The module-level queries tell whether a policy is registered:
    without one, [effective_principals] is the empty list and
    [authenticated_userid] is [None]; with an [ACLSecurityPolicy]
    registered, the list that [effective_principals] returns is never
    empty, since it begins with [Everyone]. *)
Theorem effective_principals_empty_iff_no_policy :
  forall (policy : option ACLSecurityPolicy.t) (r : request),
    (policy = None ->
     effective_principals policy r = Ok (VList [])
     /\ authenticated_userid policy r = Ok VNone)
    /\ (forall v, effective_principals policy r = Ok v ->
          exists ps, v = VList ps
                     /\ (ps = [] <-> policy = None)
                     /\ (policy <> None -> hd_error ps = Some Everyone)).
Proof.
  intros policy r. split.
  - by intros ->.
  - intros v H. destruct policy as [pol|]; simpl in H.
    + destruct (ACLSecurityPolicy.effective_principals pol r) as [ps|e] eqn:Hp;
        [|discriminate H].
      inversion H. exists ps. split; [done|].
      destruct (effective_principals_inv _ _ _ Hp) as (v0 & _ & Hc).
      destruct Hc as [[_ ->]|[_ (first & rest & _ & ->)]]; by repeat split.
    + inversion H. exists []. by repeat split.
Qed.

Lemma effective_principals_empty_iff_no_policy_witness :
  exists ps,
    VList [Everyone; Authenticated; george] = VList ps
    /\ (ps = [] <-> Some RemoteUserACLSecurityPolicy = None)
    /\ (Some RemoteUserACLSecurityPolicy <> None -> hd_error ps = Some Everyone).
Proof.
  apply (proj2 (effective_principals_empty_iff_no_policy
                  (Some RemoteUserACLSecurityPolicy) george_request)).
  vm_compute. reflexivity.
Defined.

(** X20. With a policy registered, [has_permission] returns what the view
    permission that [ViewPermissionFactory] makes for the same permission,
    context and request returns when called with that policy; when the
    policy is an [ACLSecurityPolicy] that is [permits] of the policy, and
    it is never the plain [True] that [has_permission] returns without a
    policy. *)
Theorem has_permission_is_the_view_permission :
  forall (reg : registry) (policy : ISecurityPolicy) (permission : value)
         (context : node) (r : request),
    queryUtility_ISecurityPolicy reg = Some policy ->
    has_permission reg permission context r
    = ViewPermission.call
        (ViewPermissionFactory.call (ViewPermissionFactory.mk permission) context r)
        policy
    /\ (forall pol, policy = ACLSecurityPolicy_implements pol ->
          has_permission reg permission context r
          = ACLSecurityPolicy.permits pol context r permission
          /\ has_permission reg permission context r <> Ok (Builtin (VBool true))).
Proof.
  intros reg policy permission context r Hreg.
  unfold has_permission. rewrite Hreg. split; [done|].
  intros pol ->. split; [done|]. apply policy_permits_not_True.
Qed.

Lemma has_permission_is_the_view_permission_witness :
  has_permission
    {| queryUtility_ISecurityPolicy :=
         Some (ACLSecurityPolicy_implements RemoteUserACLSecurityPolicy) |}
    view bare_document george_request
  = ViewPermission.call
      (ViewPermissionFactory.call (ViewPermissionFactory.mk view) bare_document
         george_request)
      (ACLSecurityPolicy_implements RemoteUserACLSecurityPolicy).
Proof.
  refine (proj1 (has_permission_is_the_view_permission
                   {| queryUtility_ISecurityPolicy :=
                        Some (ACLSecurityPolicy_implements
                                RemoteUserACLSecurityPolicy) |}
                   (ACLSecurityPolicy_implements RemoteUserACLSecurityPolicy)
                   view bare_document george_request _)).
  reflexivity.
Defined.

(** ** The debug logger and the summary *)

Lemma lower_char_idempotent c : lower_char (lower_char c) = lower_char c.
Proof. destruct c as [[] [] [] [] [] [] [] []]; reflexivity. Qed.

Lemma lower_idempotent s : lower (lower s) = lower s.
Proof. induction s as [|c s IH]; simpl; [done|]. by rewrite lower_char_idempotent, IH. Qed.

(** X21. [debug_logger] returns a logger that is passed to it as it is,
    whatever the environment says, so applying it twice changes nothing;
    without a logger it returns [None] when the variable is not set, and
    its answer depends on the value of the variable only up to the case
    of its letters; the logger it makes has level [DEBUG], and it makes
    one only when the value in lower case is one of [1], [y], [true], [t]
    and [on]. *)
Theorem debug_logger_case_insensitive_idempotent :
  forall (os_environ : gmap string string) (logger : option Logger),
    (forall l, debug_logger os_environ (Some l) = Some l)
    /\ debug_logger os_environ (debug_logger os_environ logger)
       = debug_logger os_environ logger
    /\ (os_environ !! DEBUG_LOG_KEY = None -> debug_logger os_environ None = None)
    /\ (forall v, os_environ !! DEBUG_LOG_KEY = Some v ->
          debug_logger os_environ None
          = debug_logger (<[DEBUG_LOG_KEY := lower v]> os_environ) None)
    /\ (forall l, debug_logger os_environ None = Some l ->
          logger_level l = logging_DEBUG
          /\ exists v, os_environ !! DEBUG_LOG_KEY = Some v
                       /\ In (lower v) ["1"; "y"; "true"; "t"; "on"]).
Proof.
  intros os_environ logger. split; [done|]. split; [|split; [|split]].
  - destruct logger as [l|]; [done|]. unfold debug_logger.
    destruct (existsb _ _); done.
  - intros H. unfold debug_logger. by rewrite H.
  - intros v Hv. unfold debug_logger.
    by rewrite Hv, lookup_insert_eq, lower_idempotent.
  - intros l H. unfold debug_logger in H.
    destruct (existsb _ _) eqn:He; [|discriminate H].
    inversion H. split; [done|].
    apply existsb_exists in He as (x & Hin & Hx).
    apply String.eqb_eq in Hx. subst x.
    destruct (os_environ !! DEBUG_LOG_KEY) as [v|] eqn:Hv.
    + by exists v.
    + simpl in Hin. by repeat destruct Hin as [Hin|Hin].
Qed.

Lemma debug_logger_case_insensitive_idempotent_witness :
  debug_logger {[ DEBUG_LOG_KEY := "TRUE" ]} None
  = debug_logger (<[DEBUG_LOG_KEY := lower "TRUE"]> {[ DEBUG_LOG_KEY := "TRUE" ]}) None.
Proof.
  apply (proj1 (proj2 (proj2 (proj2 (debug_logger_case_insensitive_idempotent
                                       {[ DEBUG_LOG_KEY := "TRUE" ]} None))))).
  vm_compute. reflexivity.
Defined.

(** X22. The summary of a decision tells the two kinds apart: whatever
    [repr] prints for the fields, an [Allowed] and a [Denied] never have
    the same summary, so decisions with the same summary have the same
    truth value. *)
Theorem summary_tells_allowed_from_denied :
  forall (repr : value -> string) (d1 d2 : decision),
    decision_str repr d1 = decision_str repr d2 ->
    nonzero d1 = nonzero d2.
Proof.
  intros repr d1 d2 H. destruct d1, d2; try done; discriminate H.
Qed.

Lemma summary_tells_allowed_from_denied_witness :
  nonzero (implicit_deny (VList []) view (VTuple []) bare_root)
  = nonzero (implicit_deny (VList []) view (VTuple []) bare_root).
Proof.
  apply (summary_tells_allowed_from_denied (fun _ => "?")).
  reflexivity.
Defined.

(** ** Matching of strings *)

Lemma py_eq_VStr s x : py_eq (VStr s) x = true <-> x = VStr s.
Proof.
  destruct x; simpl; try (split; [discriminate | discriminate]).
  rewrite String.eqb_eq. split; [by intros -> | by intros [= ->]].
Qed.

(** X23. Strings match by equality only.  A permission given as a string
    is listed by a permission field that is a string exactly when the two
    strings are equal (flattening keeps [in] from searching inside the
    string), and by a field that is a list of strings exactly when it is
    one of them; a principal field that is a string matches exactly when
    that string is among the flattened principals. *)
Theorem strings_match_by_equality :
  forall (s t : string) (ts : list string) (flat : list value),
    (permission_listed (VStr s) (VStr t) = true <-> s = t)
    /\ (permission_listed (VStr s) (VList (map VStr ts)) = true <-> In s ts)
    /\ (principal_matches (VStr s) flat = true <-> In (VStr s) flat).
Proof.
  intros s t ts flat. split; [|split].
  - unfold permission_listed. cbn [flatten isinstance_basestring py_in existsb].
    rewrite orb_false_r, py_eq_VStr. split; [by intros [= ->] | by intros ->].
  - unfold permission_listed.
    rewrite flatten_VList, flatten_loop_atoms.
    + cbn [app]. unfold py_in. rewrite existsb_exists. split.
      * intros (x & Hin & Hx). apply py_eq_VStr in Hx. subst x.
        apply in_map_iff in Hin as (t0 & [= ->] & Hin). done.
      * intros Hin. exists (VStr s). split; [by apply in_map | by apply py_eq_VStr].
    + clear. induction ts; simpl; constructor; done.
  - unfold principal_matches. rewrite existsb_exists. split.
    + intros (x & Hin & Hx). apply py_eq_VStr in Hx. by subst x.
    + intros Hin. exists (VStr s). split; [done | by apply py_eq_VStr].
Qed.
